(** * A shallow embedding of the LotR ALeP workflow helpers (lotr.py)

    The development follows the layout of the Python module: first the
    library primitives the module calls (string methods, the regular
    expressions it uses, ElementTree serialisation, path helpers), then one
    section per function of lotr.py, and finally the properties.

    Conventions.
    - A Python [str] is a [string]; its characters are the code points
      below 256.
    - A Python [int] is a [Z].  The only floats of the module that matter
      here are quotients of small integers ([len(x) / 2], [(n - 1) / 120],
      ...); they are represented by the exact rational [Q], on which
      [math.floor] and [math.ceil] are [Qfloor] and [Qceiling].
    - A dictionary used as a map is a [gmap], a set a [gset]; a dictionary
      whose iteration order is observed is an association list.
    - A function that may raise returns a [result]. *)

From Stdlib Require Import Ascii String ZArith QArith Qround Lia.
From stdpp Require Import base list strings gmap sorting pretty.

Local Open Scope string_scope.
Local Open Scope list_scope.
Local Open Scope Z_scope.

(** ** Exceptions *)

Inductive exn :=
  | IndexError
  | KeyError (key : string)
  | UnboundLocalError (name : string)
  | FileNotFoundError
  | ParseError.

Inductive result (A : Type) :=
  | Ok (a : A)
  | Raise (e : exn).
Arguments Ok {A} a.
Arguments Raise {A} e.

#[global] Instance result_ret : MRet result := λ A a, Ok a.
#[global] Instance result_bind : MBind result := λ A B k m,
  match m with
  | Ok a => k a
  | Raise e => Raise e
  end.

(** ** Python string methods *)

Module Py.

(** [str.isspace] for one character (also the class [\s] of [re] on
    [str] patterns). *)
Definition is_space (c : ascii) : bool :=
  let n := N_of_ascii c in
  ((9 <=? n) && (n <=? 13) || (28 <=? n) && (n <=? 32)
   || (n =? 133) || (n =? 160))%N.

Fixpoint all_space (s : string) : bool :=
  match s with
  | "" => true
  | String c r => is_space c && all_space r
  end.

Fixpoint lstrip (s : string) : string :=
  match s with
  | "" => ""
  | String c r => if is_space c then lstrip r else s
  end.

Fixpoint rstrip (s : string) : string :=
  match s with
  | "" => ""
  | String c r => if all_space s then "" else String c (rstrip r)
  end.

(** [s.strip()] *)
Definition strip (s : string) : string := rstrip (lstrip s).

(** [s.split(sep)] for a one-character separator. *)
Fixpoint split (sep : ascii) (s : string) : list string :=
  match s with
  | "" => [""]
  | String c r =>
      if decide (c = sep) then "" :: split sep r
      else match split sep r with
           | p :: ps => String c p :: ps
           | [] => [String c ""]
           end
  end.

(** [sep.join(parts)] *)
Fixpoint join (sep : string) (parts : list string) : string :=
  match parts with
  | [] => ""
  | [p] => p
  | p :: ps => p +:+ sep +:+ join sep ps
  end.

Fixpoint startswith (s p : string) : bool :=
  match p, s with
  | "", _ => true
  | String a p', String b s' => bool_decide (a = b) && startswith s' p'
  | String _ _, "" => false
  end.

Fixpoint sdrop (n : nat) (s : string) : string :=
  match n, s with
  | O, _ => s
  | S n', String _ r => sdrop n' r
  | S _, "" => ""
  end.

Fixpoint stake (n : nat) (s : string) : string :=
  match n, s with
  | S n', String c r => String c (stake n' r)
  | _, _ => ""
  end.

(** [s.endswith(p)] *)
Definition endswith (s p : string) : bool :=
  bool_decide (sdrop (String.length s - String.length p) s = p).

(** [s[i:j]] for constants [0 <= i <= j]. *)
Definition slice (i j : nat) (s : string) : string := stake (j - i) (sdrop i s).

(** [p in s] (substring test). *)
Fixpoint contains (s p : string) : bool :=
  startswith s p ||
  match s with
  | "" => false
  | String _ r => contains r p
  end.

(** [s.split(sep)[-1]]: [split] never returns the empty list. *)
Definition split_last (sep : ascii) (s : string) : string :=
  default "" (last (split sep s)).

(** [l[:-1]], [l[i]] and [l[a:b]] on lists, for constants [0 <= a <= b]. *)
Definition but_last {A} (l : list A) : list A := removelast l.

Definition list_slice {A} (a b : nat) (l : list A) : list A :=
  take (b - a) (drop a l).

Definition item {A} (l : list A) (i : nat) : result A :=
  match l !! i with Some x => Ok x | None => Raise IndexError end.

End Py.

(** ** os.path *)

Module OsPath.

(** [os.path.join(a, b)] (the POSIX implementation). *)
Definition join (a b : string) : string :=
  if Py.startswith b "/" then b
  else if bool_decide (a = "") || Py.endswith a "/" then a +:+ b
  else a +:+ "/" +:+ b.

End OsPath.

(** * DriveThruCards deck names *)

(** [_deck_name(current_cnt, total_cnt)] *)
Definition _deck_name (current_cnt : Z) (total_cnt : Q) : string :=
  if negb (Qle_bool total_cnt 130)
  then "deck" +:+
       pretty (Z.min (Qfloor (inject_Z (current_cnt - 1) / 120) + 1)
                     (Qceiling ((total_cnt - 10) / 120))) +:+ "/"
  else "".

(** The string ['deck{}/'.format(d)]. *)
Definition deck_label (d : Z) : string := "deck" +:+ pretty d +:+ "/".

(** The 1-based indices, out of [n] cards, that get the prefix [name]. *)
Definition deck_members (n : Z) (name : string) : list Z :=
  filter (λ i, _deck_name i (inject_Z n) = name) (seqZ 1 n).

(** ** The regular expressions of the module

    Each [re.sub] call of lotr.py is written out as the left-to-right scan
    that [re.sub] performs for its pattern (leftmost matches, greedy
    repetition, no overlap). *)

Module Re.

(** [re.sub(r'\n\s*', '', s)]: a match starts at a newline and extends over
    all the white space that follows it; [skipping] tells that the scan is
    inside a match. *)
Fixpoint sub_newline_space_go (skipping : bool) (s : string) : string :=
  match s with
  | "" => ""
  | String c r =>
      if decide (c = "010"%char) then sub_newline_space_go true r
      else if skipping && Py.is_space c then sub_newline_space_go true r
      else String c (sub_newline_space_go false r)
  end.

Definition sub_newline_space : string → string := sub_newline_space_go false.

Fixpoint no_newline (s : string) : bool :=
  match s with
  | "" => true
  | String c r => negb (bool_decide (c = "010"%char)) && no_newline r
  end.

(** Does [.{36}(?=-<side>\.(?:png|jpg))] match at the start of [s]? *)
Definition id_slot_at (side s : string) : bool :=
  bool_decide (String.length (Py.stake 36 s) = 36%nat)
  && no_newline (Py.stake 36 s)
  && (Py.startswith (Py.sdrop 36 s) ("-" +:+ side +:+ ".png")
      || Py.startswith (Py.sdrop 36 s) ("-" +:+ side +:+ ".jpg")).

(** [re.sub(r'.{36}(?=-<side>\.(?:png|jpg))', '', s)]; [skip] counts the
    characters of the current match that are still to be dropped. *)
Fixpoint sub_id_slot_go (side : string) (skip : nat) (s : string) : string :=
  match s with
  | "" => ""
  | String c r =>
      match skip with
      | S k => sub_id_slot_go side k r
      | O => if id_slot_at side s then sub_id_slot_go side 35 r
             else String c (sub_id_slot_go side 0 r)
      end
  end.

Definition sub_id_slot (side : string) : string → string :=
  sub_id_slot_go side 0.

(** [re.sub('-+', '-', s)] *)
Fixpoint sub_dashes_go (in_run : bool) (s : string) : string :=
  match s with
  | "" => ""
  | String c r =>
      if decide (c = "-"%char)
      then if in_run then sub_dashes_go true r
           else String "-" (sub_dashes_go true r)
      else String c (sub_dashes_go false r)
  end.

Definition sub_dashes : string → string := sub_dashes_go false.

(** [re.sub(r'-(?:e|p)-', '-', s)] *)
Fixpoint sub_role_go (skip : nat) (s : string) : string :=
  match s with
  | "" => ""
  | String c r =>
      match skip with
      | S k => sub_role_go k r
      | O => if Py.startswith s "-e-" || Py.startswith s "-p-"
             then String "-" (sub_role_go 2 r)
             else String c (sub_role_go 0 r)
      end
  end.

Definition sub_role : string → string := sub_role_go 0.

End Re.

(** ** xml.etree.ElementTree *)

Module ET.

(** An element: tag, attributes in insertion order, text before the first
    child, children, text after the end tag.  An absent text ([None]) and
    the empty text are both [""]: the serialiser does not tell them
    apart. *)
#[warnings="-register-all"]
Inductive Element :=
  | Elem (tag : string) (attrib : list (string * string)) (text : string)
         (children : list Element) (tail : string).

Definition tag (e : Element) : string :=
  match e with Elem t _ _ _ _ => t end.
Definition attrib (e : Element) : list (string * string) :=
  match e with Elem _ a _ _ _ => a end.
Definition text (e : Element) : string :=
  match e with Elem _ _ x _ _ => x end.
Definition children (e : Element) : list Element :=
  match e with Elem _ _ _ c _ => c end.
Definition tail (e : Element) : string :=
  match e with Elem _ _ _ _ x => x end.

Definition with_children (e : Element) (c : list Element) : Element :=
  match e with Elem t a x _ y => Elem t a x c y end.

(** [d.get(key)] on the attribute dictionary. *)
Fixpoint dict_get (d : list (string * string)) (key : string)
  : option string :=
  match d with
  | [] => None
  | (k, v) :: r => if decide (k = key) then Some v else dict_get r key
  end.

(** [d[key] = value]: an existing key keeps its position. *)
Fixpoint dict_set (d : list (string * string)) (key value : string)
  : list (string * string) :=
  match d with
  | [] => [(key, value)]
  | (k, v) :: r =>
      if decide (k = key) then (k, value) :: r
      else (k, v) :: dict_set r key value
  end.

(** [elem.attrib.get(key)] *)
Definition get (e : Element) (key : string) : option string :=
  dict_get (attrib e) key.

(** [elem.attrib[key]] *)
Definition getitem (e : Element) (key : string) : result string :=
  match get e key with
  | Some v => Ok v
  | None => Raise (KeyError key)
  end.

(** [elem.set(key, value)] *)
Definition set (e : Element) (key value : string) : Element :=
  match e with Elem t a x c y => Elem t (dict_set a key value) x c y end.

(** [elem[0]] *)
Definition first_child (e : Element) : result Element :=
  Py.item (children e) 0.

(** [elem[0] = c] *)
Definition set_first_child (e : Element) (c : Element) : Element :=
  with_children e (<[0%nat := c]> (children e)).

Fixpoint escape_cdata (s : string) : string :=
  match s with
  | "" => ""
  | String c r =>
      (if decide (c = "&"%char) then "&amp;"
       else if decide (c = "<"%char) then "&lt;"
       else if decide (c = ">"%char) then "&gt;"
       else String c "") +:+ escape_cdata r
  end.

Fixpoint escape_attrib (s : string) : string :=
  match s with
  | "" => ""
  | String c r =>
      (if decide (c = "&"%char) then "&amp;"
       else if decide (c = "<"%char) then "&lt;"
       else if decide (c = ">"%char) then "&gt;"
       else if decide (c = "034"%char) then "&quot;"
       else if decide (c = "013"%char) then "&#13;"
       else if decide (c = "010"%char) then "&#10;"
       else if decide (c = "009"%char) then "&#09;"
       else String c "") +:+ escape_attrib r
  end.

(** The one-character string holding a double quote. *)
Definition dquote : string := String "034"%char "".

Fixpoint serialize_attrib (a : list (string * string)) : string :=
  match a with
  | [] => ""
  | (k, v) :: r =>
      " " +:+ k +:+ "=" +:+ dquote +:+ escape_attrib v +:+ dquote
      +:+ serialize_attrib r
  end.

(** [ET.tostring(elem, encoding='unicode')] for elements without
    namespaces, comments or processing instructions: the start tag with the
    attributes in dictionary order, then either [" />"] (no text and no
    child) or the text, the children and the end tag; the tail follows. *)
Fixpoint tostring (e : Element) : string :=
  match e with
  | Elem t a x c y =>
      "<" +:+ t +:+ serialize_attrib a +:+
      (if bool_decide (x = "") && bool_decide (c = [])
       then " />"
       else ">" +:+ escape_cdata x +:+
            foldr (λ child acc, tostring child +:+ acc) "" c +:+
            "</" +:+ t +:+ ">") +:+
      escape_cdata y
  end.

(** What is found at a path given to [ET.parse]. *)
Inductive xml_file :=
  | Missing
  | Corrupt
  | Parsed (root : Element).

(** [ET.parse(path).getroot()] *)
Definition parse (f : xml_file) : result Element :=
  match f with
  | Missing => Raise FileNotFoundError
  | Corrupt => Raise ParseError
  | Parsed root => Ok root
  end.

(** [os.path.exists(path)] *)
Definition file_exists (f : xml_file) : bool :=
  match f with
  | Missing => false
  | _ => true
  end.

End ET.

(** * Change detection: [calculate_hashes] *)

Definition SET_EONS_PATH : string := "setEons".

(** The xml files of the working tree, by path. *)
Definition xml_fs : Type := string → ET.xml_file.

Definition write_xml (fs : xml_fs) (path : string) (root : ET.Element)
  : xml_fs :=
  λ p, if decide (p = path) then ET.Parsed root else fs p.

Section ChangeDetection.

(** [hashlib.md5(s.encode()).hexdigest()] *)
Variable md5_hexdigest : string → string.

(** [re.sub(r'\n\s*', '', ET.tostring(elem, encoding='unicode').strip())] *)
Definition canonical (elem : ET.Element) : string :=
  Re.sub_newline_space (Py.strip (ET.tostring elem)).

Definition fingerprint (elem : ET.Element) : string :=
  md5_hexdigest (canonical elem).

(** The body of the first loop: [card.set('hash', card_hash)]. *)
Definition hash_card (card : ET.Element) : ET.Element :=
  ET.set card "hash" (fingerprint card).

(** [for card in root_old[0]: old_hashes[card.attrib['id']] =
    card.attrib['hash']] (the right-hand side is evaluated first). *)
Fixpoint collect_old_hashes (old_hashes : gmap string string)
    (cards : list ET.Element) : result (gmap string string) :=
  match cards with
  | [] => Ok old_hashes
  | card :: rest =>
      h ← ET.getitem card "hash";
      id ← ET.getitem card "id";
      collect_old_hashes (<[id := h]> old_hashes) rest
  end.

(** [for card in root[0]: if old_hashes.get(card.attrib['id']) ==
    card.attrib['hash']: card.set('skip', '1')].  The ids of the marked
    cards are also put in a local set, which is not used afterwards. *)
Fixpoint mark_skipped (old_hashes : gmap string string)
    (cards : list ET.Element) : result (list ET.Element) :=
  match cards with
  | [] => Ok []
  | card :: rest =>
      id ← ET.getitem card "id";
      h ← ET.getitem card "hash";
      let card := if decide (old_hashes !! id = Some h)
                  then ET.set card "skip" "1" else card in
      rest ← mark_skipped old_hashes rest;
      Ok (card :: rest)
  end.

(** [calculate_hashes(set_id, set_name, lang)]: the files after the call
    and the returned pair [(new_file_hash, old_file_hash)]. *)
Definition calculate_hashes (set_id set_name lang : string) (fs : xml_fs)
  : result (xml_fs * (string * string)) :=
  let new_path :=
    OsPath.join SET_EONS_PATH (set_id +:+ "." +:+ lang +:+ ".xml") in
  root ← ET.parse (fs new_path);
  cards ← ET.first_child root;
  let cards := ET.with_children cards (hash_card <$> ET.children cards) in
  let root := ET.set_first_child root cards in
  let new_file_hash := fingerprint root in
  let root := ET.set root "hash" new_file_hash in
  let old_path :=
    OsPath.join SET_EONS_PATH (set_id +:+ "." +:+ lang +:+ ".xml.old") in
  if ET.file_exists (fs old_path) then
    root_old ← ET.parse (fs old_path);
    old_file_hash ← ET.getitem root_old "hash";
    let root := if decide (old_file_hash = new_file_hash)
                then ET.set root "skip" "1" else root in
    cards_old ← ET.first_child root_old;
    old_hashes ← collect_old_hashes ∅ (ET.children cards_old);
    cards ← ET.first_child root;
    marked ← mark_skipped old_hashes (ET.children cards);
    let root := ET.set_first_child root (ET.with_children cards marked) in
    Ok (write_xml fs new_path root, (new_file_hash, old_file_hash))
  else
    Ok (write_xml fs new_path root, (new_file_hash, "")).

End ChangeDetection.

(** * Folders and effects *)

(** A folder: the names of its files, in the order [os.walk] lists them,
    and its sub-folders. *)
#[warnings="-register-all"]
Inductive folder :=
  | Folder (files : list string) (subdirs : list (string * folder)).

Definition files (d : folder) : list string :=
  match d with Folder f _ => f end.
Definition subdirs (d : folder) : list (string * folder) :=
  match d with Folder _ s => s end.

(** [os.path.exists(os.path.join(path, name))] for the folder at [path]
    and a [name] without separator. *)
Definition exists_in (d : folder) (name : string) : bool :=
  bool_decide (name ∈ files d) || bool_decide (name ∈ (subdirs d).*1).

(** [os.remove(os.path.join(path, name))] *)
Definition remove_file (name : string) (d : folder) : folder :=
  Folder (filter (λ f, f ≠ name) (files d)) (subdirs d).

(** The folders of the working tree, by path; [None] where there is no
    folder, in which case [os.walk] yields nothing. *)
Definition folder_fs : Type := string → option folder.

(** ** Stale output pruning *)

(** [_clear_modified_images(folder, skip_ids)], on the folder found at the
    path. *)
Definition _clear_modified_images (d : option folder)
    (skip_ids : gset string) : option folder :=
  d ← d;
  Some (foldl
          (λ d filename,
             if bool_decide (Py.split_last "." filename ∈ ["jpg"; "png"])
             then
               let card_id := Py.slice 50 86 filename in
               if bool_decide (card_id ∉ skip_ids)
               then remove_file filename d
               else d
             else d)
          d (files d)).

(** ** Observable effects

    The calls that leave a trace outside the process, in program order.
    [logging.info] progress lines are left out. *)

Inductive page_format := A4 | Letter.

(** [canvas.drawImage(card, width_margin + column * card_width,
    height_margin + row * card_height, card_width, card_height)] *)
Record draw := Draw { image : string; column : Z; row : Z }.

Inductive event :=
  | LogError (msg : string)
  | EnsureFolder (path : string)
  | CopyFile (src dst : string)
  | ZipWrite (src arcname : string)
  | SavePdf (path : string) (pagesize : page_format)
            (pages : list (list draw)).

Definition io (A : Type) : Type := list event * result A.

#[global] Instance io_ret : MRet io := λ A a, ([], Ok a).
#[global] Instance io_bind : MBind io := λ A B k m,
  match m with
  | (t, Ok a) => let '(t', r) := k a in (t ++ t', r)
  | (t, Raise e) => (t, Raise e)
  end.

Definition emit (e : event) : io unit := ([e], Ok ()).
Definition lift {A} (r : result A) : io A := ([], r).

(** [for x in l: s = body(s, x)] *)
Fixpoint for_each {A S} (l : list A) (body : S → A → io S) (s : S) : io S :=
  match l with
  | [] => mret s
  | x :: r => s' ← body s x; for_each r body s'
  end.

Definition IMAGES_BACK_PATH : string := "imagesBack".
Definition IMAGES_EONS_PATH : string := "imagesEons".
Definition OUTPUT_PDF_PATH : string := OsPath.join "Output" "PDF".

(** * PDF proof sheets *)

(** The dictionary [images]: back type to list of (front, back) paths, in
    insertion order. *)
Definition images_t : Type := list (string * list (string * string)).

(** [images[key].append(x)] done for each [x] of [xs]. *)
Fixpoint images_extend (images : images_t) (key : string)
    (xs : list (string * string)) : images_t :=
  match images with
  | [] => []
  | (k, l) :: r =>
      if decide (k = key) then (k, l ++ xs) :: r
      else (k, l) :: images_extend r key xs
  end.

(** The body of the loop of [_collect_pdf_images]. *)
Definition collect_pdf_image (input_path : string) (d : folder)
    (images : images_t) (filename : string) : io images_t :=
  let parts := Py.split "-" filename in
  if bool_decide (Py.split_last "-" filename ≠ "1.png") then mret images
  else
    let back_name := Py.join "-" (Py.but_last parts) +:+ "-2.png" in
    back ←
      (if exists_in d back_name
       then mret (Some ("custom", OsPath.join input_path back_name))
       else
         role ← lift (Py.item parts 2);
         if decide (role = "p")
         then mret (Some ("player",
                          OsPath.join IMAGES_BACK_PATH
                                      "playerBackOfficial.png"))
         else if decide (role = "e")
         then mret (Some ("encounter",
                          OsPath.join IMAGES_BACK_PATH
                                      "encounterBackOfficial.png"))
         else
           emit (LogError ("ERROR: Missing card back for " +:+ filename
                           +:+ ", removing the file"));;
           mret None);
    match back with
    | None => mret images
    | Some (back_type, back_path) =>
        marker ← lift (Py.item parts 1);
        let copies := if decide (marker = "p") then 3%nat else 1%nat in
        mret (images_extend images back_type
                (replicate copies
                   (OsPath.join input_path filename, back_path)))
    end.

(** [_collect_pdf_images(input_path)] *)
Definition _collect_pdf_images (fs : folder_fs) (input_path : string)
  : io images_t :=
  match fs input_path with
  | None => lift (Raise (UnboundLocalError "images"))
  | Some d =>
      if bool_decide (files d = []) then mret []
      else for_each (files d) (collect_pdf_image input_path d)
             [("player", []); ("encounter", []); ("custom", [])]
  end.

(** A sheet slot: [None] or a (front, back) pair. *)
Definition slot : Type := option (string * string).

(** [[(l[i * 6:(i + 1) * 6] + [None] * 6)[:6]
     for i in range(math.ceil(len(l) / 6))]] *)
Definition sheets_of (l : list (string * string)) : list (list slot) :=
  (λ i : nat, take 6 ((Some <$> Py.list_slice (i * 6) ((i + 1) * 6) l)
                      ++ replicate 6 None))
  <$> seq 0 (Z.to_nat (Qceiling (inject_Z (Z.of_nat (length l)) / 6))).

(** [i and i[0] or None] and [i and i[1] or None] *)
Definition front_of (i : slot) : option string :=
  match i with
  | Some (f, _) => if decide (f = "") then None else Some f
  | None => None
  end.

Definition back_of (i : slot) : option string :=
  match i with
  | Some (_, b) => if decide (b = "") then None else Some b
  | None => None
  end.

(** The loop building [pages] from [pages_raw]. *)
Fixpoint sheet_pages (pages_raw : list (list slot))
  : result (list (list (option string))) :=
  match pages_raw with
  | [] => Ok []
  | page :: rest =>
      let front_page := front_of <$> page in
      let back_page := back_of <$> page in
      b2 ← Py.item back_page 2;
      b1 ← Py.item back_page 1;
      b0 ← Py.item back_page 0;
      b5 ← Py.item back_page 5;
      b4 ← Py.item back_page 4;
      b3 ← Py.item back_page 3;
      let back_page := [b2; b1; b0; b5; b4; b3] in
      rest ← sheet_pages rest;
      Ok (front_page :: back_page :: rest)
  end.

(** The drawing calls of one page. *)
Definition draw_page (page : list (option string)) : list draw :=
  mjoin (imap (λ (i : nat) card,
                 match card with
                 | Some card =>
                     [if bool_decide (i < 3)%nat
                      then Draw card (Z.of_nat i) 1
                      else Draw card (Z.of_nat i - 3) 0]
                 | None => []
                 end) page).

Definition format_name (f : page_format) : string :=
  match f with A4 => "A4" | Letter => "Letter" end.

(** [generate_pdf(set_id, set_name, lang)] *)
Definition generate_pdf (fs : folder_fs) (set_id set_name lang : string)
  : io unit :=
  let input_path :=
    OsPath.join (OsPath.join IMAGES_EONS_PATH "png300PDF")
                (set_id +:+ "." +:+ lang) in
  let output_path :=
    OsPath.join OUTPUT_PDF_PATH (set_name +:+ "." +:+ lang) in
  images ← _collect_pdf_images fs input_path;
  if bool_decide (images = [])
  then emit (LogError ("[" +:+ set_name +:+ ", " +:+ lang
                       +:+ "] ERROR: No cards found"))
  else
    emit (EnsureFolder output_path);;
    let pages_raw := mjoin ((λ kv : string * _, sheets_of kv.2) <$> images) in
    pages ← lift (sheet_pages pages_raw);
    for_each [A4; Letter]
      (λ _ page_format,
         emit (SavePdf
                 (OsPath.join output_path
                    (format_name page_format +:+ "." +:+ set_name +:+ "."
                     +:+ lang +:+ ".pdf"))
                 page_format (draw_page <$> pages)))
      ().

(** * Print-on-demand packaging *)

(** The three substitutions applied to every output file name; [side] is
    ["1"] for a front and ["2"] for a back. *)
Definition output_name (side name : string) : string :=
  Re.sub_role (Re.sub_dashes (Re.sub_id_slot side name)).

(** The two [shutil.copyfile] calls made for one physical copy. *)
Definition copy_card (input_path output_path file_type filename
    back_path : string) (parts : list string) : io unit :=
  let front_output_path :=
    OsPath.join output_path (output_name "1" (Py.join "-" parts)) in
  let back_output_path :=
    OsPath.join output_path
      (output_name "2"
         (Py.join "-" (Py.but_last parts) +:+ "-2." +:+ file_type)) in
  emit (CopyFile (OsPath.join input_path filename) front_output_path);;
  emit (CopyFile back_path back_output_path).

(** The body of the loop of [_prepare_printing_images]. *)
Definition prepare_printing_image (input_path output_path service : string)
    (d : folder) (filename : string) : io unit :=
  let file_type := if decide (service = "mpc") then "png" else "jpg" in
  let parts := Py.split "-" filename in
  if negb (Py.contains ("1." +:+ file_type) (Py.split_last "-" filename))
  then mret ()
  else
    let back_name :=
      Py.join "-" (Py.but_last parts) +:+ "-2." +:+ file_type in
    back ←
      (if exists_in d back_name
       then mret (Some (OsPath.join input_path back_name))
       else
         role ← lift (Py.item parts 2);
         if decide (role = "p")
         then mret (Some (OsPath.join IMAGES_BACK_PATH
                            (if decide (service = "mpc")
                             then "playerBackUnofficialMPC.png"
                             else "playerBackOfficialDTC.jpg")))
         else if decide (role = "e")
         then mret (Some (OsPath.join IMAGES_BACK_PATH
                            (if decide (service = "mpc")
                             then "encounterBackUnofficialMPC.png"
                             else "encounterBackOfficialDTC.jpg")))
         else
           emit (LogError ("ERROR: Missing card back for " +:+ filename
                           +:+ ", removing the file"));;
           mret None);
    match back with
    | None => mret ()
    | Some back_path =>
        marker ← lift (Py.item parts 1);
        if decide (marker = "p")
        then
          for_each [0; 1; 2]
            (λ _ i,
               copy_card input_path output_path file_type filename back_path
                 (<[1%nat := pretty (i + 1)]> parts))
            ()
        else
          copy_card input_path output_path file_type filename back_path
            parts
    end.

(** [_prepare_printing_images(input_path, output_path, service)] *)
Definition _prepare_printing_images (fs : folder_fs)
    (input_path output_path service : string) : io unit :=
  match fs input_path with
  | None => mret ()
  | Some d =>
      for_each (files d)
        (λ _, prepare_printing_image input_path output_path service d) ()
  end.

(** The body of the loop of [_prepare_dtc_printing_archive]; the state is
    [(front_cnt, back_cnt)]. *)
Definition dtc_archive_file (input_path : string) (total_cnt : Q)
    (cnt : Z * Z) (filename : string) : io (Z * Z) :=
  let '(front_cnt, back_cnt) := cnt in
  if Py.endswith filename "-1.jpg" then
    let front_cnt := front_cnt + 1 in
    emit (ZipWrite (OsPath.join input_path filename)
            (_deck_name front_cnt total_cnt +:+ "front/" +:+ filename));;
    mret (front_cnt, back_cnt)
  else if Py.endswith filename "-2.jpg" then
    let back_cnt := back_cnt + 1 in
    emit (ZipWrite (OsPath.join input_path filename)
            (_deck_name back_cnt total_cnt +:+ "back/" +:+ filename));;
    mret (front_cnt, back_cnt)
  else mret (front_cnt, back_cnt).

(** [sorted(f for f in filenames if f.endswith('-1.jpg') or
    f.endswith('-2.jpg'))] *)
Definition dtc_filenames (d : folder) : list string :=
  merge_sort String.le
    (filter (λ f, Py.endswith f "-1.jpg" || Py.endswith f "-2.jpg")
            (files d)).

(** [_prepare_dtc_printing_archive(input_path, obj)] *)
Definition _prepare_dtc_printing_archive (fs : folder_fs)
    (input_path : string) : io unit :=
  match fs input_path with
  | None => mret ()
  | Some d =>
      let filenames := dtc_filenames d in
      let total_cnt := (inject_Z (Z.of_nat (length filenames)) / 2)%Q in
      for_each filenames (dtc_archive_file input_path total_cnt) (0, 0);;
      mret ()
  end.

(** ** Vocabulary of the packaging properties *)

(** [f[:-6]]: a file name without its ["-1.jpg"] or ["-2.jpg"] ending. *)
Definition base_name (f : string) : string :=
  Py.stake (String.length f - 6) f.

(** The fronts and the backs of a DriveThruCards pool, in the order in which
    the archive loop meets them. *)
Definition dtc_fronts (d : folder) : list string :=
  filter (λ f, Py.endswith f "-1.jpg") (dtc_filenames d).
Definition dtc_backs (d : folder) : list string :=
  filter (λ f, Py.endswith f "-2.jpg") (dtc_filenames d).

(** Front [f] and back [b] are written under the same deck prefix. *)
Definition same_subarchive (events : list event) (input_path f b : string)
  : Prop :=
  ∃ deck : string,
    ZipWrite (OsPath.join input_path f) (deck +:+ "front/" +:+ f) ∈ events ∧
    ZipWrite (OsPath.join input_path b) (deck +:+ "back/" +:+ b) ∈ events.

(** Every file of the pool is the front or the back of a base name whose
    front and back are both in the pool, once. *)
Definition paired_pool (d : folder) : Prop :=
  NoDup (files d) ∧
  Forall (λ f, (f = base_name f +:+ "-1.jpg" ∨ f = base_name f +:+ "-2.jpg")
               ∧ base_name f +:+ "-1.jpg" ∈ files d
               ∧ base_name f +:+ "-2.jpg" ∈ files d) (files d).

(** The archive names under which [src] was written. *)
Definition arcnames_of (src : string) (events : list event) : list string :=
  omap (λ e, match e with
             | ZipWrite s a => if decide (s = src) then Some a else None
             | _ => None
             end) events.

(** A pool of 131 pairs: 119 base names below ["z"], then ["z"] and
    ["z-1a"], then 10 base names above. *)
Definition crossing_pool : folder :=
  Folder
    (mjoin ((λ x, [x +:+ "-1.jpg"; x +:+ "-2.jpg"]) <$>
            (((λ i, "c" +:+ pretty (1000 + i)) <$> seqZ 0 119)
             ++ ["z"; "z-1a"]
             ++ ((λ i, "~" +:+ pretty i) <$> seqZ 0 10))))
    [].

Definition crossing_fs : folder_fs :=
  λ p, if decide (p = "Temp") then Some crossing_pool else None.

(** A pool of two pairs, listed out of order. *)
Definition two_pairs_fs : folder_fs :=
  λ p, if decide (p = "Temp")
       then Some (Folder ["b-2.jpg"; "a-1.jpg"; "a-2.jpg"; "b-1.jpg"] [])
       else None.

(** ** Vocabulary of the PDF properties *)

(** The folders [generate_pdf] reads and writes, and the documents it
    saves. *)
Definition pdf_input_path (set_id lang : string) : string :=
  OsPath.join (OsPath.join IMAGES_EONS_PATH "png300PDF")
              (set_id +:+ "." +:+ lang).

Definition pdf_output_path (set_name lang : string) : string :=
  OsPath.join OUTPUT_PDF_PATH (set_name +:+ "." +:+ lang).

Definition pdf_documents (set_name lang : string)
    (pages : list (list (option string))) : list event :=
  [SavePdf (OsPath.join (pdf_output_path set_name lang)
              ("A4." +:+ set_name +:+ "." +:+ lang +:+ ".pdf"))
           A4 (draw_page <$> pages);
   SavePdf (OsPath.join (pdf_output_path set_name lang)
              ("Letter." +:+ set_name +:+ "." +:+ lang +:+ ".pdf"))
           Letter (draw_page <$> pages)].

Definition is_SavePdf (e : event) : bool :=
  match e with SavePdf _ _ _ => true | _ => false end.

(** The pairs collected for the PDF, over all back types. *)
Definition pdf_pairs (images : images_t) : list (string * string) :=
  mjoin (snd <$> images).

(** A PDF pool holding one file that is no card image. *)
Definition stray_file_fs : folder_fs :=
  λ p, if decide (p = pdf_input_path "S" "en")
       then Some (Folder ["readme.txt"] []) else None.

(** An empty PDF pool. *)
Definition empty_pool_fs : folder_fs :=
  λ p, if decide (p = pdf_input_path "S" "en")
       then Some (Folder [] []) else None.

(** A PDF pool with a custom pair, an encounter card and a card without
    back. *)
Definition small_pool_fs : folder_fs :=
  λ p, if decide (p = pdf_input_path "S" "en")
       then Some (Folder ["a-p-p-x-1.png"; "a-p-p-x-2.png"; "b-1-e-y-1.png";
                          "c-1-z-1.png"; "readme.txt"] [])
       else None.

(** ** Vocabulary of the back-face properties *)

(** [images[key]] *)
Fixpoint images_get (images : images_t) (key : string)
  : list (string * string) :=
  match images with
  | [] => []
  | (k, l) :: r => if decide (k = key) then l else images_get r key
  end.

(** The name of the custom back of a front: the front's name with the
    part after the last dash replaced by [2.<ext>]. *)
Definition sibling_back_name (ext filename : string) : string :=
  Py.join "-" (Py.but_last (Py.split "-" filename)) +:+ "-2." +:+ ext.

(** The back of a front, as the specification words it: (a) the sibling
    back when it exists, a custom back; else (b) the fixed player or
    encounter back when the third dash-separated part is [p] or [e]; else
    (c) none. *)
Definition resolve_back (input_path ext player_back encounter_back : string)
    (d : folder) (filename : string) : option (string * string) :=
  if exists_in d (sibling_back_name ext filename)
  then Some ("custom",
             OsPath.join input_path (sibling_back_name ext filename))
  else if decide (Py.split "-" filename !! 2%nat = Some "p")
  then Some ("player", OsPath.join IMAGES_BACK_PATH player_back)
  else if decide (Py.split "-" filename !! 2%nat = Some "e")
  then Some ("encounter", OsPath.join IMAGES_BACK_PATH encounter_back)
  else None.

Definition pdf_back (input_path : string) (d : folder) (filename : string)
  : option (string * string) :=
  resolve_back input_path "png" "playerBackOfficial.png"
    "encounterBackOfficial.png" d filename.

Definition file_type_of (service : string) : string :=
  if decide (service = "mpc") then "png" else "jpg".

Definition printing_back (input_path service : string) (d : folder)
    (filename : string) : option (string * string) :=
  resolve_back input_path (file_type_of service)
    (if decide (service = "mpc") then "playerBackUnofficialMPC.png"
     else "playerBackOfficialDTC.jpg")
    (if decide (service = "mpc") then "encounterBackUnofficialMPC.png"
     else "encounterBackOfficialDTC.jpg")
    d filename.

(** The number of copies: 3 when the second dash-separated part is the
    player marker [p], else 1. *)
Definition copies_of (filename : string) : nat :=
  if decide (Py.split "-" filename !! 1%nat = Some "p") then 3%nat else 1%nat.

Definition missing_back_error (filename : string) : event :=
  LogError ("ERROR: Missing card back for " +:+ filename
            +:+ ", removing the file").

(** Is the file a front for the PDF pool? *)
Definition pdf_front (filename : string) : Prop :=
  Py.split_last "-" filename = "1.png".

(** What one file adds to the list [images[key]], and to the log. *)
Definition pdf_entries (input_path : string) (d : folder) (key : string)
    (filename : string) : list (string * string) :=
  if decide (pdf_front filename) then
    match pdf_back input_path d filename with
    | Some (k, back) =>
        if decide (k = key)
        then replicate (copies_of filename)
               (OsPath.join input_path filename, back)
        else []
    | None => []
    end
  else [].

Definition pdf_errors (input_path : string) (d : folder)
    (filename : string) : list event :=
  if decide (pdf_front filename) then
    match pdf_back input_path d filename with
    | Some _ => []
    | None => [missing_back_error filename]
    end
  else [].

(** The fronts of a pool have the two parts and the role part that the
    renderer's naming puts before the identifier. *)
Definition well_named (front : string → Prop) (d : folder) : Prop :=
  ∀ f : string, f ∈ files d → front f →
    (3 ≤ length (Py.split "-" f))%nat.

(** Is the file taken for a front by [_prepare_printing_images]?  The test
    of the source is a substring test: the part after the last dash occurs
    in [1.<ext>]. *)
Definition printing_front (service filename : string) : Prop :=
  Py.contains ("1." +:+ file_type_of service) (Py.split_last "-" filename)
  = true.

#[global] Instance printing_front_dec (service filename : string) :
  Decision (printing_front service filename).
Proof. unfold printing_front. apply _. Defined.

(** The two copies made for one physical card whose name has the parts
    [parts]. *)
Definition copy_events (input_path output_path service filename
    back_path : string) (parts : list string) : list event :=
  [CopyFile (OsPath.join input_path filename)
     (OsPath.join output_path (output_name "1" (Py.join "-" parts)));
   CopyFile back_path
     (OsPath.join output_path
        (output_name "2" (Py.join "-" (Py.but_last parts) +:+ "-2."
                          +:+ file_type_of service)))].

(** What one file of the pool makes [_prepare_printing_images] do. *)
Definition printing_events (input_path output_path service : string)
    (d : folder) (filename : string) : list event :=
  if decide (printing_front service filename) then
    match printing_back input_path service d filename with
    | Some (_, back) =>
        let copy := copy_events input_path output_path service filename
                      back in
        let parts := Py.split "-" filename in
        if decide (parts !! 1%nat = Some "p")
        then copy (<[1%nat := "1"]> parts) ++ copy (<[1%nat := "2"]> parts)
             ++ copy (<[1%nat := "3"]> parts)
        else copy parts
    | None => [missing_back_error filename]
    end
  else [].

#[global] Instance pdf_front_dec (filename : string) :
  Decision (pdf_front filename).
Proof. unfold pdf_front. apply _. Defined.

(** A pool with one front that carries the player marker but whose back
    cannot be resolved. *)
Definition orphan_front_fs : folder_fs :=
  λ p, if decide (p = "pool") then Some (Folder ["c-p-z-1.png"] [])
       else None.


(** ** Vocabulary of the fingerprint properties *)

Section TreeRelation.

(** Two trees with the same tags, the same attributes and values and the
    same shape, whose texts are related by [text_rel] (told whether the
    element has no child) and whose tails are related by [tail_rel]. *)
Variable text_rel : bool → string → string → Prop.
Variable tail_rel : string → string → Prop.

#[warnings="-register-all"]
Inductive tree_rel : ET.Element → ET.Element → Prop :=
  | tree_rel_elem (t : string) (a : list (string * string))
      (x1 x2 : string) (c1 c2 : list ET.Element) (y1 y2 : string) :
      text_rel (bool_decide (c1 = [])) x1 x2 →
      Forall2 tree_rel c1 c2 →
      tail_rel y1 y2 →
      tree_rel (ET.Elem t a x1 c1 y1) (ET.Elem t a x2 c2 y2).

End TreeRelation.

(** Equal, or both made of white space only. *)
Definition ws_text (x1 x2 : string) : Prop :=
  x1 = x2 ∨ (Py.all_space x1 = true ∧ Py.all_space x2 = true).

(** The trees of the claim: they differ only in whitespace-only text
    nodes. *)
Definition ws_equiv : ET.Element → ET.Element → Prop :=
  tree_rel (λ _, ws_text) ws_text.

(** Line-break indentation: nothing, or a newline followed by white space
    only. *)
Definition indentation (s : string) : bool :=
  Py.all_space s && (bool_decide (s = "") || Py.startswith s (String "010" "")).

(** Equal, or both line-break indentation; the text of an element without
    child is then empty in both trees or in neither. *)
Definition indent_text (childless : bool) (x1 x2 : string) : Prop :=
  x1 = x2 ∨
  (indentation x1 = true ∧ indentation x2 = true ∧
   (childless = true → (x1 = "" ↔ x2 = ""))).

Definition indent_tail (y1 y2 : string) : Prop :=
  y1 = y2 ∨ (indentation y1 = true ∧ indentation y2 = true).

(** Two card trees that differ only in line-break indentation inside, and
    in white space after the card's end tag. *)
Inductive indent_equiv : ET.Element → ET.Element → Prop :=
  | indent_equiv_card (t : string) (a : list (string * string))
      (x1 x2 : string) (c1 c2 : list ET.Element) (y1 y2 : string) :
      indent_text (bool_decide (c1 = [])) x1 x2 →
      Forall2 (tree_rel indent_text indent_tail) c1 c2 →
      ws_text y1 y2 →
      indent_equiv (ET.Elem t a x1 c1 y1) (ET.Elem t a x2 c2 y2).

(** Two cards that differ in a whitespace-only text without newline. *)
Definition spaced_card : ET.Element :=
  ET.Elem "card" [("id", "1")] " " [ET.Elem "property" [] "" [] ""] "".
Definition packed_card : ET.Element :=
  ET.Elem "card" [("id", "1")] "" [ET.Elem "property" [] "" [] ""] "".

(** The state of the scan of [Re.sub_newline_space_go] after [s]. *)
Fixpoint skipping_after (skipping : bool) (s : string) : bool :=
  match s with
  | "" => skipping
  | String c r =>
      if decide (c = "010"%char) then skipping_after true r
      else if skipping && Py.is_space c then skipping_after true r
      else skipping_after false r
  end.

(** The serialised children of an element, followed by [rest]. *)
Definition serialized_children (c : list ET.Element) (rest : string)
  : string :=
  foldr (λ child acc, ET.tostring child +:+ acc) rest c.

(** Two continuations that the scan of [re.sub(r'\n\s*', '', _)] cannot
    tell apart, and a continuation that reads the same inside and outside
    a match. *)
Definition same_sub (k1 k2 : string) : Prop :=
  ∀ b : bool,
    Re.sub_newline_space_go b k1 = Re.sub_newline_space_go b k2.

Definition good (k : string) : Prop :=
  ∀ b : bool,
    Re.sub_newline_space_go b k = Re.sub_newline_space_go false k.

(** The continuation-passing property of one pair of elements. *)
Definition passes (e1 e2 : ET.Element) : Prop :=
  ∀ k1 k2 : string,
    good k1 → good k2 → same_sub k1 k2 →
    same_sub (ET.tostring e1 +:+ k1) (ET.tostring e2 +:+ k2).

(** ** Vocabulary of the skip properties *)

Definition new_xml_path (set_id lang : string) : string :=
  OsPath.join SET_EONS_PATH (set_id +:+ "." +:+ lang +:+ ".xml").

Definition old_xml_path (set_id lang : string) : string :=
  OsPath.join SET_EONS_PATH (set_id +:+ "." +:+ lang +:+ ".xml.old").

(** The cards of a set document: the children of the root's first child. *)
Definition cards_of (root : ET.Element) : list ET.Element :=
  match ET.children root with
  | cards :: _ => ET.children cards
  | [] => []
  end.

(** The identifiers of a list of cards. *)
Definition card_ids (cards : list ET.Element) : list (option string) :=
  (λ card, ET.get card "id") <$> cards.

(** A card as the second loop leaves it. *)
Definition marked_card (old_hashes : gmap string string)
    (card : ET.Element) : ET.Element :=
  match ET.get card "id", ET.get card "hash" with
  | Some id, Some h =>
      if decide (old_hashes !! id = Some h) then ET.set card "skip" "1"
      else card
  | _, _ => card
  end.

Section ChangeDetectionVocabulary.
Variable md5_hexdigest : string → string.

(** The root after the first loop: every card carries its fingerprint. *)
Definition hashed_root (root : ET.Element) : ET.Element :=
  match ET.children root with
  | cards :: _ =>
      ET.set_first_child root
        (ET.with_children cards
           (hash_card md5_hexdigest <$> ET.children cards))
  | [] => root
  end.

(** The set-level fingerprint. *)
Definition set_fingerprint (root : ET.Element) : string :=
  fingerprint md5_hexdigest (hashed_root root).

End ChangeDetectionVocabulary.

(** A freshly generated set document: it has its list of cards, and
    neither the set nor a card carries a [skip] attribute yet. *)
Definition fresh_document (root : ET.Element) : Prop :=
  ET.children root ≠ [] ∧
  ET.get root "skip" = None ∧
  Forall (λ card, ET.get card "skip" = None) (cards_of root).

(** A snapshot written by an earlier run: the set and every card carry a
    [hash], every card an [id], and no two cards the same [id]. *)
Definition snapshot_document (root : ET.Element) : Prop :=
  ET.children root ≠ [] ∧
  is_Some (ET.get root "hash") ∧
  Forall (λ card, is_Some (ET.get card "id")
                  ∧ is_Some (ET.get card "hash")) (cards_of root) ∧
  NoDup (card_ids (cards_of root)).

(** Documents used to exercise the skip properties. *)
Definition sample_new_root : ET.Element :=
  ET.Elem "set" [("name", "S")] ""
    [ET.Elem "cards" [] ""
       [ET.Elem "card" [("id", "a")] "" [] "";
        ET.Elem "card" [("id", "b")] "" [] ""] ""] "".

Definition sample_old_root : ET.Element :=
  ET.Elem "set" [("name", "S"); ("hash", "H")] ""
    [ET.Elem "cards" [] ""
       [ET.Elem "card" [("id", "a"); ("hash", "h")] "" [] "";
        ET.Elem "card" [("id", "b"); ("hash", "stale")] "" [] ""] ""] "".

Definition sample_xml_fs (with_old : bool) : xml_fs :=
  λ p, if decide (p = new_xml_path "S" "en") then ET.Parsed sample_new_root
       else if decide (p = old_xml_path "S" "en")
       then (if with_old then ET.Parsed sample_old_root else ET.Missing)
       else ET.Missing.

(** * Further functions of lotr.py *)






(** ** Vocabulary of the further properties *)









(** ** Vocabulary of the numbered copies *)

(** Does the character occur in the string? *)
Fixpoint has_char (c : ascii) (s : string) : bool :=
  match s with
  | "" => false
  | String a r => bool_decide (a = c) || has_char c r
  end.

(** No identifier slot of [side], 36 characters followed by
    [-<side>.png] or [-<side>.jpg], starts at one of the first [n]
    characters of [name]. *)
Fixpoint slot_clear (side : string) (n : nat) (name : string) : bool :=
  match n with
  | O => true
  | S k =>
      negb (Re.id_slot_at side name)
      && match name with
         | "" => true
         | String _ r => slot_clear side k r
         end
  end.

(** The names given to copy [i] of a front whose name has the parts
    [p0 :: marker :: rest], before the substitutions: ['-'.join(parts)] and
    ['{}-2.{}'.format('-'.join(parts[:-1]), file_type)] with
    [parts[1] = i]. *)
Definition numbered_front (p0 i : string) (rest : list string) : string :=
  Py.join "-" (p0 :: i :: rest).

Definition numbered_back (ext p0 i : string) (rest : list string) : string :=
  Py.join "-" (Py.but_last (p0 :: i :: rest)) +:+ "-2." +:+ ext.

(** In the three numbered names of a front, the identifier slots start
    after the copy number. *)
Definition copy_number_kept (ext p0 : string) (rest : list string) : Prop :=
  Forall (λ i,
            slot_clear "1" (String.length p0 + 2) (numbered_front p0 i rest)
            = true ∧
            slot_clear "2" (String.length p0 + 2)
              (numbered_back ext p0 i rest) = true)
    ["1"; "2"; "3"].

(** What the substitutions leave of a numbered name after its copy number,
    [text] being what follows the dash after the copy number. *)
Definition name_tail (side text : string) : string :=
  Re.sub_role (Re.sub_dashes (Re.sub_id_slot side ("-" +:+ text))).

(** The text that follows the copy number and its dash in the numbered
    names. *)
Definition front_text (rest : list string) : string := Py.join "-" rest.

Definition back_text (ext : string) (rest : list string) : string :=
  match Py.but_last rest with
  | [] => "2." +:+ ext
  | init => Py.join "-" init +:+ "-2." +:+ ext
  end.

(** The prefix that [os.path.join(output_path, name)] puts before a name
    that begins with [p0] and a dash. *)
Definition joined_prefix (output_path p0 : string) : string :=
  if Py.startswith (p0 +:+ "-") "/" then ""
  else if bool_decide (output_path = "") || Py.endswith output_path "/"
  then output_path
  else output_path +:+ "/".

(** The two copies made for copy [i] of a player front, by destination. *)
Definition numbered_copies (input_path output_path service filename
    back_path p0 : string) (rest : list string) (i : string) : list event :=
  [CopyFile (OsPath.join input_path filename)
     (joined_prefix output_path p0 +:+ p0 +:+ "-" +:+ i
      +:+ name_tail "1" (front_text rest));
   CopyFile back_path
     (joined_prefix output_path p0 +:+ p0 +:+ "-" +:+ i
      +:+ name_tail "2" (back_text (file_type_of service) rest))].

(** A pool with one front whose name has two dash-separated parts and no
    sibling back. *)
Definition short_name_fs : folder_fs :=
  λ p, if decide (p = "pool") then Some (Folder ["x-1.png"] []) else None.

(** A pool with a player front whose name has fewer than 36 characters
    between the marker and the suffix. *)
Definition short_slot_fs : folder_fs :=
  λ p, if decide (p = "pool")
       then Some (Folder ["a-p-p-0123456789012345678901234567890-1.png"] [])
       else None.

(** A pool of images named as the renderer names them: a number, the
    marker, the role, the title, the 36 characters of the identifier and
    the side. *)
Definition rendered_pool_fs : folder_fs :=
  λ p, if decide (p = "pool")
       then Some (Folder
                    ["001-p-p-Aragorn-51223bd0-ffd1-11df-a976-0801200c9001-1.png";
                     "002-1-e-Orc-51223bd0-ffd1-11df-a976-0801200c9002-1.png";
                     "readme.txt"] [])
       else None.

(** The destination of a copy. *)
Definition copy_destination (e : event) : option string :=
  match e with
  | CopyFile _ dst => Some dst
  | _ => None
  end.





(** * Properties *)

(** ** Strings *)

Lemma append_cons (c : ascii) (s t : string) :
  String c s +:+ t = String c (s +:+ t).
Proof. reflexivity. Qed.

Lemma append_nil_l (s : string) : "" +:+ s = s.
Proof. reflexivity. Qed.

Lemma append_nil_r (s : string) : s +:+ "" = s.
Proof.
  induction s as [|c s IH]; [done|]. by rewrite append_cons, IH.
Qed.

Lemma append_assoc (s1 s2 s3 : string) :
  (s1 +:+ s2) +:+ s3 = s1 +:+ (s2 +:+ s3).
Proof.
  induction s1 as [|c s1 IH]; [done|]. by rewrite !append_cons, IH.
Qed.

Lemma append_char_inj (c : ascii) (s1 s2 : string) :
  s1 +:+ String c "" = s2 +:+ String c "" → s1 = s2.
Proof.
  revert s2. induction s1 as [|a s1 IH]; intros [|b s2];
    rewrite ?append_cons, ?append_nil_l; try done.
  - intros [= _ H]. by destruct s2.
  - intros [= _ H]. by destruct s1.
  - intros [= -> H]. f_equal. by apply IH.
Qed.

(** ** Deck names *)

Lemma deck_label_inj (d1 d2 : Z) : deck_label d1 = deck_label d2 → d1 = d2.
Proof.
  unfold deck_label. intros H.
  apply (inj (String.append "deck")) in H.
  apply append_char_inj in H. by apply (inj pretty) in H.
Qed.

Lemma floor_div_120 (a : Z) : Qfloor (inject_Z a / 120) = a `div` 120.
Proof. symmetry. apply (Zdiv_Qdiv a 120). Qed.

Lemma ceiling_total_120 (n : Z) :
  Qceiling ((inject_Z n - 10) / 120) = (n + 109) `div` 120.
Proof.
  unfold Qceiling.
  rewrite (Qfloor_comp _ (inject_Z (10 - n) / inject_Z 120)).
  - rewrite <- Zdiv_Qdiv.
    pose proof (Z.div_mod (10 - n) 120 ltac:(lia)).
    pose proof (Z.mod_pos_bound (10 - n) 120 ltac:(lia)).
    pose proof (Z.div_mod (n + 109) 120 ltac:(lia)).
    pose proof (Z.mod_pos_bound (n + 109) 120 ltac:(lia)).
    lia.
  - unfold Qeq, Qdiv, Qminus, Qplus, Qopp, Qmult, Qinv, inject_Z; simpl. lia.
Qed.

Lemma total_gt_130 (n : Z) :
  negb (Qle_bool (inject_Z n) 130) = bool_decide (130 < n).
Proof.
  unfold Qle_bool; simpl.
  case_bool_decide; destruct (Z.leb_spec (n * 1) 130); simpl; auto; lia.
Qed.

(** The deck number given to card [i] out of [n > 130] cards. *)
Lemma deck_name_int (i n : Z) :
  _deck_name i (inject_Z n) =
  if bool_decide (130 < n)
  then deck_label (Z.min ((i - 1) `div` 120 + 1) ((n + 109) `div` 120))
  else "".
Proof.
  unfold _deck_name. rewrite total_gt_130.
  case_bool_decide; [|done].
  by rewrite floor_div_120, ceiling_total_120.
Qed.

(** C2, as stated, fails: "sub-archives of at most 120 cards each".  Out of
    245 cards the second sub-archive receives the 125 cards 121..245. *)
Lemma deck_split_over_120 :
  ¬ (∀ name : string, (length (deck_members 245 name) ≤ 120)%nat).
Proof.
  intros H. specialize (H "deck2/"). vm_compute in H. lia.
Qed.

(** C2 (amended).  With [n <= 130] front cards no card gets a sub-archive
    prefix.  With [n > 130] card [i] gets the prefix [deck<d>/] where [d] is
    [floor((i-1)/120)+1] clamped to the number [D = ceil((n-10)/120)] of the
    last sub-archive: every sub-archive [d < D] holds exactly the 120 cards
    [120(d-1)+1 .. 120d], and the last one holds the cards
    [120(D-1)+1 .. n], which are more than 10 and at most 130. *)
Theorem deck_split_clamp (n i d : Z) :
  1 ≤ i ≤ n →
  let D := Qceiling ((inject_Z n - 10) / 120) in
  (n ≤ 130 → _deck_name i (inject_Z n) = "") ∧
  (130 < n →
   2 ≤ D ∧
   10 < n - 120 * (D - 1) ≤ 130 ∧
   _deck_name i (inject_Z n)
     = deck_label (Z.min (Qfloor (inject_Z (i - 1) / 120) + 1) D) ∧
   (_deck_name i (inject_Z n) = deck_label d ↔
      (d < D ∧ 120 * (d - 1) < i ≤ 120 * d) ∨
      (d = D ∧ 120 * (D - 1) < i))).
Proof.
  intros Hi D. subst D. rewrite ceiling_total_120, floor_div_120.
  rewrite deck_name_int.
  pose proof (Z.div_mod (n + 109) 120 ltac:(lia)) as Hn.
  pose proof (Z.mod_pos_bound (n + 109) 120 ltac:(lia)) as Hn'.
  pose proof (Z.div_mod (i - 1) 120 ltac:(lia)) as Hq.
  pose proof (Z.mod_pos_bound (i - 1) 120 ltac:(lia)) as Hq'.
  split; intros Hlt.
  - rewrite bool_decide_eq_false_2 by lia. done.
  - rewrite bool_decide_eq_true_2 by lia.
    split; [lia|]. split; [lia|]. split; [done|].
    split.
    + intros <-%deck_label_inj. lia.
    + intros H. f_equal. lia.
Qed.

Lemma deck_split_clamp_witness :
  1 ≤ 121 ≤ 245 ∧
  _deck_name 121 (inject_Z 245) = deck_label 2 ∧
  10 < 245 - 120 * (2 - 1) ≤ 130.
Proof.
  split; [lia|].
  destruct (deck_split_clamp 245 121 2 ltac:(lia)) as [_ H].
  destruct (H ltac:(lia)) as (_ & Hlast & _ & Hiff).
  split; [|exact Hlast].
  apply Hiff. right. vm_compute. split; [reflexivity|reflexivity].
Defined.

(** ** The effect monad *)

Lemma io_bind_done {A B} (t : list event) (a : A) (k : A → io B) :
  (t, Ok a) ≫= k = (t ++ (k a).1, (k a).2).
Proof. unfold mbind, io_bind. by destruct (k a). Qed.

Lemma io_bind_raise {A B} (t : list event) (e : exn) (k : A → io B) :
  (t, Raise e) ≫= k = (t, Raise e).
Proof. reflexivity. Qed.

Lemma io_bind_ret {A B} (a : A) (k : A → io B) : mret a ≫= k = k a.
Proof. unfold mret, io_ret. rewrite io_bind_done. by destruct (k a). Qed.

Lemma io_bind_emit {B} (e : event) (k : unit → io B) :
  emit e ≫= k = (e :: (k ()).1, (k ()).2).
Proof. unfold emit. by rewrite io_bind_done. Qed.

Lemma for_each_cons {A S} (x : A) (l : list A) (body : S → A → io S) (s : S) :
  for_each (x :: l) body s = body s x ≫= for_each l body.
Proof. reflexivity. Qed.

(** ** DriveThruCards archive *)

Lemma endswith_exclusive (f : string) :
  Py.endswith f "-1.jpg" = true → Py.endswith f "-2.jpg" = false.
Proof.
  unfold Py.endswith. intros H%bool_decide_eq_true.
  apply bool_decide_eq_false. simpl in *. congruence.
Qed.

Section DtcLoop.
Variables (input_path : string) (total_cnt : Q).

Lemma dtc_archive_file_eq (fc bc : Z) (f : string) :
  dtc_archive_file input_path total_cnt (fc, bc) f =
  if Py.endswith f "-1.jpg"
  then ([ZipWrite (OsPath.join input_path f)
           (_deck_name (fc + 1) total_cnt +:+ "front/" +:+ f)],
        Ok (fc + 1, bc))
  else if Py.endswith f "-2.jpg"
  then ([ZipWrite (OsPath.join input_path f)
           (_deck_name (bc + 1) total_cnt +:+ "back/" +:+ f)],
        Ok (fc, bc + 1))
  else ([], Ok (fc, bc)).
Proof.
  unfold dtc_archive_file.
  destruct (Py.endswith f "-1.jpg"); [done|].
  by destruct (Py.endswith f "-2.jpg").
Qed.

Lemma dtc_loop_ok (names : list string) (cnt : Z * Z) :
  ∃ cnt', (for_each names (dtc_archive_file input_path total_cnt) cnt).2
          = Ok cnt'.
Proof.
  revert cnt. induction names as [|f names IH]; intros [fc bc].
  - by eexists.
  - rewrite for_each_cons, dtc_archive_file_eq.
    destruct (Py.endswith f "-1.jpg"); [|destruct (Py.endswith f "-2.jpg")];
      rewrite io_bind_done; apply IH.
Qed.

Lemma dtc_loop_front (names : list string) (fc bc : Z) (k : nat) (f : string) :
  filter (λ f, Py.endswith f "-1.jpg") names !! k = Some f →
  ZipWrite (OsPath.join input_path f)
    (_deck_name (fc + Z.of_nat k + 1) total_cnt +:+ "front/" +:+ f)
  ∈ (for_each names (dtc_archive_file input_path total_cnt) (fc, bc)).1.
Proof.
  revert fc bc k. induction names as [|x names IH]; intros fc bc k; [done|].
  rewrite filter_cons, for_each_cons, dtc_archive_file_eq.
  destruct (Py.endswith x "-1.jpg") eqn:E1.
  - rewrite decide_True by done. rewrite io_bind_done.
    cbn [fst app]. destruct k as [|k]; intros H; simpl in H.
    + injection H as ->. replace (fc + Z.of_nat 0 + 1) with (fc + 1) by lia.
      apply list_elem_of_here.
    + apply list_elem_of_further.
      replace (fc + Z.of_nat (S k) + 1)
        with (fc + 1 + Z.of_nat k + 1) by lia.
      by apply IH.
  - rewrite decide_False by (simpl; tauto).
    destruct (Py.endswith x "-2.jpg"); rewrite io_bind_done;
      simpl; intros H; [apply list_elem_of_further|]; by apply IH.
Qed.

Lemma dtc_loop_back (names : list string) (fc bc : Z) (k : nat) (b : string) :
  filter (λ f, Py.endswith f "-2.jpg") names !! k = Some b →
  ZipWrite (OsPath.join input_path b)
    (_deck_name (bc + Z.of_nat k + 1) total_cnt +:+ "back/" +:+ b)
  ∈ (for_each names (dtc_archive_file input_path total_cnt) (fc, bc)).1.
Proof.
  revert fc bc k. induction names as [|x names IH]; intros fc bc k; [done|].
  rewrite filter_cons, for_each_cons, dtc_archive_file_eq.
  destruct (Py.endswith x "-1.jpg") eqn:E1.
  - rewrite (endswith_exclusive _ E1).
    rewrite decide_False by (simpl; tauto). rewrite io_bind_done.
    simpl. intros H. apply list_elem_of_further. by apply IH.
  - destruct (Py.endswith x "-2.jpg") eqn:E2.
    + rewrite decide_True by done. rewrite io_bind_done.
      cbn [fst app]. destruct k as [|k]; intros H; simpl in H.
      * injection H as ->. replace (bc + Z.of_nat 0 + 1) with (bc + 1) by lia.
        apply list_elem_of_here.
      * apply list_elem_of_further.
        replace (bc + Z.of_nat (S k) + 1)
          with (bc + 1 + Z.of_nat k + 1) by lia.
        by apply IH.
    + rewrite decide_False by (simpl; tauto). rewrite io_bind_done.
      simpl. apply IH.
Qed.

End DtcLoop.

Lemma append_length (s t : string) :
  String.length (s +:+ t) = (String.length s + String.length t)%nat.
Proof.
  induction s as [|c s IH]; [done|]. rewrite append_cons. simpl. by rewrite IH.
Qed.

Lemma append_inj_r (s1 s2 t : string) : s1 +:+ t = s2 +:+ t → s1 = s2.
Proof.
  revert s2. induction s1 as [|a s1 IH]; intros [|b s2];
    rewrite ?append_cons, ?append_nil_l; try done.
  - intros H%(f_equal String.length). simpl in H.
    rewrite append_length in H. lia.
  - intros H%(f_equal String.length). simpl in H.
    rewrite append_length in H. lia.
  - intros [= -> H]. f_equal. by apply IH.
Qed.

Lemma stake_sdrop (n : nat) (s : string) : Py.stake n s +:+ Py.sdrop n s = s.
Proof.
  revert s. induction n as [|n IH]; intros [|c s]; simpl; try done.
  by rewrite append_cons, IH.
Qed.

Lemma stake_append (s t : string) : Py.stake (String.length s) (s +:+ t) = s.
Proof.
  induction s as [|c s IH]; [by destruct t|].
  rewrite append_cons. simpl. by rewrite IH.
Qed.

Lemma sdrop_append (s t : string) : Py.sdrop (String.length s) (s +:+ t) = t.
Proof. induction s as [|c s IH]; [done|]. by rewrite append_cons. Qed.

Lemma endswith_append (s p : string) : Py.endswith (s +:+ p) p = true.
Proof.
  unfold Py.endswith. apply bool_decide_eq_true.
  rewrite append_length.
  replace (String.length s + String.length p - String.length p)%nat
    with (String.length s) by lia.
  apply sdrop_append.
Qed.

Lemma endswith_split (s p : string) :
  Py.endswith s p = true →
  s = Py.stake (String.length s - String.length p) s +:+ p.
Proof.
  unfold Py.endswith. intros H%bool_decide_eq_true.
  set (n := (String.length s - String.length p)%nat) in *.
  rewrite <- H. symmetry. apply stake_sdrop.
Qed.

Lemma base_name_append (x p : string) :
  String.length p = 6%nat → base_name (x +:+ p) = x.
Proof.
  intros Hp. unfold base_name. rewrite append_length, Hp.
  replace (String.length x + 6 - 6)%nat with (String.length x) by lia.
  apply stake_append.
Qed.

Lemma base_name_split (f p : string) :
  String.length p = 6%nat → Py.endswith f p = true → f = base_name f +:+ p.
Proof.
  intros Hp H. apply endswith_split in H. by rewrite Hp in H.
Qed.

Lemma arcnames_of_elem (src a : string) (events : list event) :
  ZipWrite src a ∈ events → a ∈ arcnames_of src events.
Proof.
  intros H. unfold arcnames_of. apply list_elem_of_omap.
  exists (ZipWrite src a). split; [done|]. by rewrite decide_True.
Qed.

(** C10, as stated, fails: in a pool where every base name has exactly one
    front and one back, the front of ["z"] is the 120th front (deck 1) but
    its back is the 121st back (deck 2), because ["z-1a-2.jpg"] sorts
    before ["z-2.jpg"] while ["z-1.jpg"] sorts before ["z-1a-1.jpg"]. *)
Lemma dtc_split_separates_pair :
  paired_pool crossing_pool ∧
  "z-1.jpg" ∈ files crossing_pool ∧
  ¬ same_subarchive (_prepare_dtc_printing_archive crossing_fs "Temp").1
      "Temp" "z-1.jpg" "z-2.jpg".
Proof.
  split; [|split].
  - split.
    + apply (bool_decide_unpack _). vm_compute. exact I.
    + apply (bool_decide_unpack _). vm_compute. exact I.
  - apply (bool_decide_unpack _). vm_compute. exact I.
  - intros (deck & H1%arcnames_of_elem & H2%arcnames_of_elem).
    assert (arcnames_of (OsPath.join "Temp" "z-1.jpg")
              (_prepare_dtc_printing_archive crossing_fs "Temp").1
            = ["deck1/front/z-1.jpg"]) as E1 by (vm_compute; reflexivity).
    assert (arcnames_of (OsPath.join "Temp" "z-2.jpg")
              (_prepare_dtc_printing_archive crossing_fs "Temp").1
            = ["deck2/back/z-2.jpg"]) as E2 by (vm_compute; reflexivity).
    rewrite E1 in H1. rewrite E2 in H2.
    apply list_elem_of_singleton in H1, H2.
    apply (append_inj_r deck "deck1/" "front/z-1.jpg") in H1.
    apply (append_inj_r deck "deck2/" "back/z-2.jpg") in H2.
    congruence.
Qed.

Lemma dtc_run_eq (fs : folder_fs) (input_path : string) (d : folder) :
  fs input_path = Some d →
  let total_cnt := (inject_Z (Z.of_nat (length (dtc_filenames d))) / 2)%Q in
  let loop := for_each (dtc_filenames d)
                (dtc_archive_file input_path total_cnt) (0, 0) in
  (_prepare_dtc_printing_archive fs input_path).1 = loop.1 ∧
  (_prepare_dtc_printing_archive fs input_path).2 = Ok ().
Proof.
  intros Hd total_cnt loop. unfold _prepare_dtc_printing_archive.
  rewrite Hd. fold total_cnt. fold loop.
  destruct (dtc_loop_ok input_path total_cnt (dtc_filenames d) (0, 0))
    as [cnt Hcnt].
  fold loop in Hcnt. destruct loop as [t r]. simpl in Hcnt. subst r.
  rewrite io_bind_done. simpl. by rewrite app_nil_r.
Qed.

(** C10 (amended).  The archive loop never raises, and for every [k] the
    k-th front and the k-th back of the sorted pool are written under the
    same deck prefix.  A front and its matching back are therefore written
    under the same prefix whenever the sorted fronts and the sorted backs
    list the base names in the same order. *)
Theorem dtc_split_pairing (fs : folder_fs) (input_path : string)
    (d : folder) :
  fs input_path = Some d →
  let run := _prepare_dtc_printing_archive fs input_path in
  run.2 = Ok () ∧
  (∀ (k : nat) (f b : string),
     dtc_fronts d !! k = Some f → dtc_backs d !! k = Some b →
     same_subarchive run.1 input_path f b) ∧
  (base_name <$> dtc_fronts d = base_name <$> dtc_backs d →
   ∀ x : string, x +:+ "-1.jpg" ∈ files d →
     same_subarchive run.1 input_path (x +:+ "-1.jpg") (x +:+ "-2.jpg")).
Proof.
  intros Hd run.
  destruct (dtc_run_eq fs input_path d Hd) as [Hev Hres].
  fold run in Hev, Hres.
  assert (∀ (k : nat) (f b : string),
            dtc_fronts d !! k = Some f → dtc_backs d !! k = Some b →
            same_subarchive run.1 input_path f b) as Hk.
  { intros k f b Hf Hb. rewrite Hev.
    exists (_deck_name (0 + Z.of_nat k + 1)
              (inject_Z (Z.of_nat (length (dtc_filenames d))) / 2)%Q).
    split; [by apply dtc_loop_front | by apply dtc_loop_back]. }
  split; [done|]. split; [done|].
  intros Hord x Hx.
  assert (x +:+ "-1.jpg" ∈ dtc_fronts d) as Hin.
  { unfold dtc_fronts. apply list_elem_of_filter. split.
    - by rewrite endswith_append.
    - unfold dtc_filenames. rewrite merge_sort_Permutation.
      apply list_elem_of_filter. split; [|done].
      by rewrite endswith_append. }
  apply list_elem_of_lookup in Hin as [k Hf].
  assert ((base_name <$> dtc_backs d) !! k = Some x) as Hb.
  { rewrite <- Hord, list_lookup_fmap, Hf. simpl.
    by rewrite base_name_append. }
  rewrite list_lookup_fmap in Hb.
  destruct (dtc_backs d !! k) as [b|] eqn:Hbk; [|done].
  simpl in Hb. injection Hb as Hb.
  assert (Py.endswith b "-2.jpg" = true) as Hend.
  { apply list_elem_of_lookup_2 in Hbk. unfold dtc_backs in Hbk.
    apply list_elem_of_filter in Hbk as [Hbk _].
    by destruct (Py.endswith b "-2.jpg"). }
  apply (base_name_split b "-2.jpg" eq_refl) in Hend.
  rewrite Hb in Hend. subst b. by apply (Hk k).
Qed.

Lemma dtc_split_pairing_witness :
  same_subarchive (_prepare_dtc_printing_archive two_pairs_fs "Temp").1
    "Temp" "b-1.jpg" "b-2.jpg".
Proof.
  destruct (dtc_split_pairing two_pairs_fs "Temp"
              (Folder ["b-2.jpg"; "a-1.jpg"; "a-2.jpg"; "b-1.jpg"] [])
              eq_refl) as (_ & _ & H).
  apply (H eq_refl "b").
  apply (bool_decide_unpack _). vm_compute. exact I.
Defined.

(** ** Stale output pruning *)

Lemma filter_ext_in {A} (P Q : A → Prop) `{∀ x, Decision (P x)}
    `{∀ x, Decision (Q x)} (l : list A) :
  (∀ x, x ∈ l → P x ↔ Q x) → filter P l = filter Q l.
Proof.
  induction l as [|a l IH]; intros HPQ; [done|].
  rewrite !filter_cons.
  rewrite IH by (intros x Hx; apply HPQ; by apply list_elem_of_further).
  destruct (decide (P a)) as [HP|HP], (decide (Q a)) as [HQ|HQ]; try done;
    exfalso; pose proof (HPQ a (list_elem_of_here _ _)); tauto.
Qed.

Lemma filter_all {A} (P : A → Prop) `{∀ x, Decision (P x)} (l : list A) :
  (∀ x, x ∈ l → P x) → filter P l = l.
Proof.
  induction l as [|a l IH]; intros HP; [done|].
  rewrite filter_cons, decide_True by (apply HP, list_elem_of_here).
  f_equal. apply IH. intros x Hx. by apply HP, list_elem_of_further.
Qed.

Section ClearModifiedImages.
Variable skip_ids : gset string.

Let stale (filename : string) : Prop :=
  Py.split_last "." filename ∈ ["jpg"; "png"]
  ∧ Py.slice 50 86 filename ∉ skip_ids.

Let step (d : folder) (filename : string) : folder :=
  if bool_decide (Py.split_last "." filename ∈ ["jpg"; "png"])
  then if bool_decide (Py.slice 50 86 filename ∉ skip_ids)
       then remove_file filename d else d
  else d.

Lemma clear_loop (l cur : list string) (subs : list (string * folder)) :
  foldl step (Folder cur subs) l =
  Folder (filter (λ f, ¬ (f ∈ l ∧ stale f)) cur) subs.
Proof.
  revert cur. induction l as [|x l IH]; intros cur.
  - simpl. f_equal. symmetry. apply filter_all.
    intros f _ [Hf _]. by apply not_elem_of_nil in Hf.
  - simpl. assert (step (Folder cur subs) x =
                   Folder (filter (λ f, ¬ (f = x ∧ stale f)) cur) subs) as ->.
    { unfold step, stale, remove_file. simpl.
      case_bool_decide as H1; [case_bool_decide as H2|].
      - f_equal. apply list_filter_iff. intros f. split.
        + intros Hne [Hx _]. done.
        + intros Hn ->. apply Hn. done.
      - f_equal. symmetry. apply filter_all. intros f _ [-> [_ ?]]. done.
      - f_equal. symmetry. apply filter_all. intros f _ [-> [? _]]. done. }
    rewrite IH, list_filter_filter. f_equal.
    apply list_filter_iff. intros f. rewrite elem_of_cons. tauto.
Qed.

End ClearModifiedImages.

(** C9.  [_clear_modified_images] deletes exactly the top-level files whose
    last dot-separated part is [jpg] or [png] and whose identifier, the
    characters 50 to 85 of the name, is not in the skip set: the files kept
    are the others, in their order, and the sub-folders are untouched.  A
    path without folder stays so. *)
Theorem clear_modified_images_exact (fls : list string)
    (subs : list (string * folder)) (skip_ids : gset string) :
  _clear_modified_images None skip_ids = None ∧
  ∃ kept : list string,
    _clear_modified_images (Some (Folder fls subs)) skip_ids
      = Some (Folder kept subs) ∧
    kept = filter (λ f, ¬ (Py.split_last "." f ∈ ["jpg"; "png"]
                           ∧ Py.slice 50 86 f ∉ skip_ids)) fls ∧
    ∀ f : string,
      f ∈ kept ↔
      f ∈ fls ∧ ¬ (Py.split_last "." f ∈ ["jpg"; "png"]
                   ∧ Py.slice 50 86 f ∉ skip_ids).
Proof.
  split; [done|]. eexists. split; [|split; [reflexivity|]].
  - unfold _clear_modified_images. simpl. f_equal.
    rewrite (clear_loop skip_ids fls fls subs). f_equal.
    apply filter_ext_in. intros f Hf. tauto.
  - intros f. rewrite list_elem_of_filter. tauto.
Qed.

(** ** PDF proof sheets *)

Lemma sheets_of_length (l : list (string * string)) :
  Forall (λ page, length page = 6%nat) (sheets_of l).
Proof.
  unfold sheets_of. apply Forall_fmap, Forall_forall. intros i _. unfold compose.
  rewrite length_take, length_app, length_replicate. lia.
Qed.

Lemma pages_raw_length (images : images_t) :
  Forall (λ page, length page = 6%nat)
    (mjoin ((λ kv : string * _, sheets_of kv.2) <$> images)).
Proof.
  induction images as [|[key l] images IH]; simpl; [constructor|].
  apply Forall_app. split; [apply sheets_of_length | apply IH].
Qed.

Lemma sheet_pages_mirror (pages_raw : list (list slot)) :
  Forall (λ page, length page = 6%nat) pages_raw →
  ∃ pages : list (list (option string)),
    sheet_pages pages_raw = Ok pages ∧
    length pages = (2 * length pages_raw)%nat ∧
    ∀ (k : nat) (page : list slot),
      pages_raw !! k = Some page →
      ∃ a b c d e f : slot,
        page = [a; b; c; d; e; f] ∧
        pages !! (2 * k)%nat
          = Some [front_of a; front_of b; front_of c;
                  front_of d; front_of e; front_of f] ∧
        pages !! (2 * k + 1)%nat
          = Some [back_of c; back_of b; back_of a;
                  back_of f; back_of e; back_of d].
Proof.
  induction 1 as [|page rest Hlen _ IH].
  - exists []. split; [done|]. split; [done|]. intros k page Hk. done.
  - destruct IH as (pages & Hpages & Hl & Hmirror).
    destruct page as [|a [|b [|c [|d [|e [|f [|g page]]]]]]]; try done.
    exists ([front_of a; front_of b; front_of c;
             front_of d; front_of e; front_of f]
            :: [back_of c; back_of b; back_of a;
                back_of f; back_of e; back_of d] :: pages).
    split; [|split].
    + cbn [sheet_pages]. simpl. rewrite Hpages. done.
    + simpl. lia.
    + intros [|k] page Hk.
      * injection Hk as <-. by exists a, b, c, d, e, f.
      * replace (2 * S k)%nat with (S (S (2 * k))) by lia.
        replace (S (S (2 * k)) + 1)%nat with (S (S (2 * k + 1))) by lia.
        simpl in Hk. apply (Hmirror k page Hk).
Qed.

Lemma generate_pdf_collected (fs : folder_fs) (set_id set_name lang : string)
    (log : list event) (images : images_t) :
  _collect_pdf_images fs (pdf_input_path set_id lang) = (log, Ok images) →
  generate_pdf fs set_id set_name lang =
  if bool_decide (images = [])
  then (log ++ [LogError ("[" +:+ set_name +:+ ", " +:+ lang
                          +:+ "] ERROR: No cards found")], Ok ())
  else
    match sheet_pages (mjoin ((λ kv : string * _, sheets_of kv.2)
                              <$> images)) with
    | Ok pages =>
        (log ++ EnsureFolder (pdf_output_path set_name lang)
             :: pdf_documents set_name lang pages, Ok ())
    | Raise e => (log ++ [EnsureFolder (pdf_output_path set_name lang)],
                  Raise e)
    end.
Proof.
  intros Hc. unfold generate_pdf. fold (pdf_input_path set_id lang).
  fold (pdf_output_path set_name lang). rewrite Hc, io_bind_done.
  do 2 case_bool_decide; try done.
  rewrite io_bind_emit. unfold lift.
  destruct (sheet_pages _) as [pages|e]; [|done].
  rewrite io_bind_done. reflexivity.
Qed.

(** C5.  When the pool yields a non-empty dictionary, [generate_pdf] saves
    the A4 and the Letter document with the same pages: for each 6-slot
    group [[a; b; c; d; e; f]] of [pages_raw], at position [k], page [2k] is
    the front sheet, with the fronts in the order [a b c d e f], and page
    [2k+1], next to it, is the back sheet, with the backs in the order
    [c b a f e d].  An empty slot stays empty. *)
Theorem pagination_mirror_law (fs : folder_fs)
    (set_id set_name lang : string) (log : list event) (images : images_t) :
  _collect_pdf_images fs (pdf_input_path set_id lang) = (log, Ok images) →
  images ≠ [] →
  let pages_raw := mjoin ((λ kv : string * _, sheets_of kv.2) <$> images) in
  ∃ pages : list (list (option string)),
    generate_pdf fs set_id set_name lang
      = (log ++ EnsureFolder (pdf_output_path set_name lang)
             :: pdf_documents set_name lang pages, Ok ()) ∧
    length pages = (2 * length pages_raw)%nat ∧
    ∀ (k : nat) (page : list slot),
      pages_raw !! k = Some page →
      ∃ a b c d e f : slot,
        page = [a; b; c; d; e; f] ∧
        pages !! (2 * k)%nat
          = Some [front_of a; front_of b; front_of c;
                  front_of d; front_of e; front_of f] ∧
        pages !! (2 * k + 1)%nat
          = Some [back_of c; back_of b; back_of a;
                  back_of f; back_of e; back_of d].
Proof.
  intros Hc Hne pages_raw.
  destruct (sheet_pages_mirror pages_raw) as (pages & Hpages & Hl & Hm).
  { apply pages_raw_length. }
  exists pages. split; [|done].
  rewrite (generate_pdf_collected _ _ _ _ _ _ Hc).
  rewrite bool_decide_eq_false_2 by done.
  fold pages_raw. by rewrite Hpages.
Qed.

Lemma pagination_mirror_law_witness :
  ∃ pages : list (list (option string)),
    (generate_pdf small_pool_fs "S" "Set" "en").1
      = [LogError "ERROR: Missing card back for c-1-z-1.png, removing the file";
         EnsureFolder (pdf_output_path "Set" "en")]
        ++ pdf_documents "Set" "en" pages ∧
    pages !! 3%nat
      = Some [Some "imagesEons/png300PDF/S.en/a-p-p-x-2.png";
              Some "imagesEons/png300PDF/S.en/a-p-p-x-2.png";
              Some "imagesEons/png300PDF/S.en/a-p-p-x-2.png";
              None; None; None].
Proof.
  destruct (pagination_mirror_law small_pool_fs "S" "Set" "en" _ _ eq_refl)
    as (pages & Hrun & _ & Hm); [done|].
  exists pages. split; [by rewrite Hrun|].
  destruct (Hm 1%nat _ eq_refl) as (a & b & c & d & e & f & Hp & _ & Hb).
  injection Hp as <- <- <- <- <- <-. exact Hb.
Defined.

(** C8, as stated, fails: a pool that holds a file but yields no (front,
    back) pair makes [_collect_pdf_images] return the three empty lists, a
    non-empty dictionary; [generate_pdf] then reports nothing and saves both
    documents, with no page. *)
Lemma generate_pdf_stray_file :
  (∃ images : images_t,
     _collect_pdf_images stray_file_fs (pdf_input_path "S" "en")
       = ([], Ok images) ∧
     pdf_pairs images = []) ∧
  (LogError "[Set, en] ERROR: No cards found"
     ∉ (generate_pdf stray_file_fs "S" "Set" "en").1) ∧
  filter is_SavePdf (generate_pdf stray_file_fs "S" "Set" "en").1
    = pdf_documents "Set" "en" [].
Proof.
  assert (generate_pdf stray_file_fs "S" "Set" "en"
          = (EnsureFolder (pdf_output_path "Set" "en")
               :: pdf_documents "Set" "en" [], Ok ())) as E
    by (vm_compute; reflexivity).
  split; [|split].
  - eexists. split; [vm_compute; reflexivity|reflexivity].
  - rewrite E. unfold pdf_documents. simpl. intros H.
    repeat (apply elem_of_cons in H as [H|H]; [discriminate|]).
    by apply not_elem_of_nil in H.
  - rewrite E. reflexivity.
Qed.

(** C8 (amended).  When the input folder of the set and language holds no
    file, [generate_pdf] logs the "No cards found" error and returns
    without creating the output folder or saving a document, and without
    raising. *)
Theorem generate_pdf_no_cards (fs : folder_fs)
    (set_id set_name lang : string) (d : folder) :
  fs (pdf_input_path set_id lang) = Some d →
  files d = [] →
  generate_pdf fs set_id set_name lang
    = ([LogError ("[" +:+ set_name +:+ ", " +:+ lang
                  +:+ "] ERROR: No cards found")], Ok ()).
Proof.
  intros Hd Hfiles.
  rewrite (generate_pdf_collected fs set_id set_name lang [] []); [done|].
  unfold _collect_pdf_images. rewrite Hd.
  by rewrite bool_decide_eq_true_2.
Qed.

Lemma generate_pdf_no_cards_witness :
  generate_pdf empty_pool_fs "S" "Set" "en"
    = ([LogError "[Set, en] ERROR: No cards found"], Ok ()).
Proof.
  apply (generate_pdf_no_cards empty_pool_fs "S" "Set" "en" (Folder [] []));
    reflexivity.
Defined.

(** ** Back-face resolution: the PDF pool *)

Lemma images_extend_keys (images : images_t) (key : string)
    (xs : list (string * string)) :
  (images_extend images key xs).*1 = images.*1.
Proof.
  induction images as [|[k l] images IH]; [done|]. simpl.
  destruct (decide (k = key)); simpl; [done|]. f_equal. exact IH.
Qed.

Lemma images_get_extend (images : images_t) (key key' : string)
    (xs : list (string * string)) :
  key ∈ images.*1 →
  images_get (images_extend images key xs) key'
  = images_get images key' ++ (if decide (key = key') then xs else []).
Proof.
  induction images as [|[k l] images IH]; intros Hin.
  - by apply not_elem_of_nil in Hin.
  - simpl. destruct (decide (k = key)) as [->|Hk]; simpl.
    + destruct (decide (key = key')); [done|]. by rewrite app_nil_r.
    + destruct (decide (k = key')) as [->|Hk'].
      * rewrite decide_False by done. by rewrite app_nil_r.
      * apply IH. simpl in Hin. apply elem_of_cons in Hin as [?|?]; done.
Qed.

Lemma item_lookup {A} (l : list A) (i : nat) (x : A) :
  l !! i = Some x → Py.item l i = Ok x.
Proof. unfold Py.item. by intros ->. Qed.

Lemma io_bind_lift {A B} (a : A) (k : A → io B) : lift (Ok a) ≫= k = k a.
Proof. apply (io_bind_ret a k). Qed.

Section PdfPool.
Variables (input_path : string) (d : folder).

Lemma collect_pdf_image_spec (images : images_t) (f : string) :
  (pdf_front f → (3 ≤ length (Py.split "-" f))%nat) →
  images.*1 = ["player"; "encounter"; "custom"] →
  ∃ images' : images_t,
    collect_pdf_image input_path d images f
      = (pdf_errors input_path d f, Ok images') ∧
    images'.*1 = images.*1 ∧
    ∀ key : string,
      images_get images' key
      = images_get images key ++ pdf_entries input_path d key f.
Proof.
  intros Hnamed Hkeys.
  unfold collect_pdf_image. case_bool_decide as Hfront.
  { exists images. unfold pdf_errors, pdf_entries, pdf_front.
    rewrite decide_False by done.
    split; [done|]. split; [done|]. intros key.
    rewrite decide_False by done. by rewrite app_nil_r. }
  specialize (Hnamed Hfront).
  assert (pdf_errors input_path d f
          = match pdf_back input_path d f with
            | Some _ => []
            | None => [missing_back_error f]
            end) as ->
    by (unfold pdf_errors; by rewrite decide_True).
  assert (∀ key, pdf_entries input_path d key f
          = match pdf_back input_path d f with
            | Some (k, back) =>
                if decide (k = key)
                then replicate (copies_of f)
                       (OsPath.join input_path f, back)
                else []
            | None => []
            end) as Hent
    by (intros key; unfold pdf_entries; by rewrite decide_True).
  setoid_rewrite Hent. clear Hent.
  unfold pdf_back, resolve_back, copies_of, sibling_back_name.
  destruct (Py.split "-" f) as [|p0 [|p1 [|p2 parts]]] eqn:Hparts;
    simpl in Hnamed; try lia.
  set (back_name := Py.join "-" (Py.but_last (p0 :: p1 :: p2 :: parts))
                    +:+ "-2." +:+ "png").
  assert (Py.join "-" (Py.but_last (p0 :: p1 :: p2 :: parts)) +:+ "-2.png"
          = back_name) as -> by done.
  assert (∀ key back,
            key ∈ images.*1 →
            ∃ images',
              (mret (Some (key, back)) ≫= λ back0 : option (string * string),
                 match back0 with
                 | Some (back_type, back_path) =>
                     marker ← lift (Py.item (p0 :: p1 :: p2 :: parts) 1);
                     mret (images_extend images back_type
                             (replicate
                                (if decide (marker = "p") then 3%nat
                                 else 1%nat)
                                (OsPath.join input_path f, back_path)))
                 | None => mret images
                 end)
              = ([], Ok images') ∧
              images'.*1 = images.*1 ∧
              ∀ key' : string,
                images_get images' key'
                = images_get images key' ++
                  (if decide (key = key')
                   then replicate
                          (if decide ((p0 :: p1 :: p2 :: parts) !! 1%nat
                                      = Some "p")
                           then 3%nat else 1%nat)
                          (OsPath.join input_path f, back)
                   else [])) as Hres.
  { intros key back Hkey. eexists. split; [|split].
    - rewrite io_bind_ret.
      change (Py.item (p0 :: p1 :: p2 :: parts) 1) with (Ok p1).
      rewrite io_bind_lift. reflexivity.
    - apply images_extend_keys.
    - intros key'. rewrite images_get_extend by done.
      f_equal. destruct (decide (key = key')); [|done]. simpl.
      destruct (decide (p1 = "p")) as [->|Hp].
      + by rewrite decide_True.
      + rewrite decide_False; [done|]. by intros [= ?]. }
  destruct (exists_in d back_name).
  { apply Hres. rewrite Hkeys. set_solver. }
  change (Py.item (p0 :: p1 :: p2 :: parts) 2) with (Ok p2).
  rewrite io_bind_lift.
  change ((p0 :: p1 :: p2 :: parts) !! 2%nat) with (Some p2).
  destruct (decide (p2 = "p")) as [->|Hp].
  { rewrite decide_True by done. apply Hres. rewrite Hkeys. set_solver. }
  rewrite (decide_False (P := Some p2 = Some "p")) by (by intros [= ?]).
  destruct (decide (p2 = "e")) as [->|He].
  { rewrite decide_True by done. apply Hres. rewrite Hkeys. set_solver. }
  rewrite (decide_False (P := Some p2 = Some "e")) by (by intros [= ?]).
  exists images. split; [|split; [done|]].
  - reflexivity.
  - intros key. by rewrite app_nil_r.
Qed.

End PdfPool.

Section PdfPoolLoop.
Variables (input_path : string) (d : folder).

Lemma collect_pdf_loop (l : list string) (images : images_t) :
  (∀ f, f ∈ l → pdf_front f → (3 ≤ length (Py.split "-" f))%nat) →
  images.*1 = ["player"; "encounter"; "custom"] →
  ∃ images' : images_t,
    for_each l (collect_pdf_image input_path d) images
      = (mjoin (pdf_errors input_path d <$> l), Ok images') ∧
    images'.*1 = ["player"; "encounter"; "custom"] ∧
    ∀ key : string,
      images_get images' key
      = images_get images key
        ++ mjoin (pdf_entries input_path d key <$> l).
Proof.
  revert images. induction l as [|f l IH]; intros images Hnamed Hkeys.
  - exists images. split; [done|]. split; [done|].
    intros key. simpl. by rewrite app_nil_r.
  - destruct (collect_pdf_image_spec input_path d images f)
      as (images1 & Hstep & Hkeys1 & Hget1); [|done|].
    { apply Hnamed, list_elem_of_here. }
    destruct (IH images1) as (images2 & Hloop & Hkeys2 & Hget2).
    { intros g Hg. by apply Hnamed, list_elem_of_further. }
    { by rewrite Hkeys1. }
    exists images2. split; [|split; [done|]].
    + rewrite for_each_cons, Hstep, io_bind_done, Hloop. done.
    + intros key. rewrite Hget2, Hget1. simpl. by rewrite app_assoc.
Qed.

End PdfPoolLoop.

(** The pool collected for the PDF: what each bucket and the log hold. *)
Lemma collect_pdf_images_spec (fs : folder_fs) (input_path : string)
    (d : folder) :
  fs input_path = Some d → files d ≠ [] → well_named pdf_front d →
  ∃ images : images_t,
    _collect_pdf_images fs input_path
      = (mjoin (pdf_errors input_path d <$> files d), Ok images) ∧
    images ≠ [] ∧
    ∀ key : string,
      images_get images key
      = mjoin (pdf_entries input_path d key <$> files d).
Proof.
  intros Hd Hne Hnamed. unfold _collect_pdf_images. rewrite Hd.
  rewrite bool_decide_eq_false_2 by done.
  destruct (collect_pdf_loop input_path d (files d)
              [("player", []); ("encounter", []); ("custom", [])])
    as (images & Hloop & Hkeys & Hget); [done|done|].
  exists images. split; [done|]. split.
  - intros ->. done.
  - intros key. rewrite Hget. simpl. by repeat case_decide.
Qed.

(** ** Back-face resolution: the printing pool *)

Section PrintingPool.
Variables (input_path output_path service : string) (d : folder).

Lemma copy_card_events (filename back_path : string) (parts : list string) :
  copy_card input_path output_path (file_type_of service) filename back_path
    parts
  = (copy_events input_path output_path service filename back_path parts,
     Ok ()).
Proof. reflexivity. Qed.

Lemma prepare_printing_image_spec (f : string) :
  (printing_front service f → (3 ≤ length (Py.split "-" f))%nat) →
  prepare_printing_image input_path output_path service d f
  = (printing_events input_path output_path service d f, Ok ()).
Proof.
  intros Hnamed. unfold prepare_printing_image, printing_events.
  fold (file_type_of service).
  destruct (Py.contains ("1." +:+ file_type_of service)
              (Py.split_last "-" f)) eqn:Hfront; cbn [negb].
  2:{ rewrite (decide_False (P := printing_front service f));
        [reflexivity|]. unfold printing_front. by rewrite Hfront. }
  rewrite (decide_True (P := printing_front service f)) by exact Hfront.
  specialize (Hnamed Hfront).
  unfold printing_back, resolve_back, sibling_back_name.
  destruct (Py.split "-" f) as [|p0 [|p1 [|p2 parts]]] eqn:Hparts;
    simpl in Hnamed; try lia.
  set (back_name := Py.join "-" (Py.but_last (p0 :: p1 :: p2 :: parts))
                    +:+ "-2." +:+ file_type_of service).
  assert (∀ back : string,
            (mret (Some back) ≫= λ back0 : option string,
               match back0 with
               | Some back_path =>
                   marker ← lift (Py.item (p0 :: p1 :: p2 :: parts) 1);
                   if decide (marker = "p")
                   then
                     for_each [0; 1; 2]
                       (λ (_ : ()) (i : Z),
                          copy_card input_path output_path
                            (file_type_of service) f back_path
                            (<[1%nat := pretty (i + 1)]>
                               (p0 :: p1 :: p2 :: parts)))
                       ()
                   else
                     copy_card input_path output_path
                       (file_type_of service) f back_path
                       (p0 :: p1 :: p2 :: parts)
               | None => mret ()
               end)
            = (let copy := copy_events input_path output_path service f
                             back in
               if decide ((p0 :: p1 :: p2 :: parts) !! 1%nat = Some "p")
               then copy (<[1%nat := "1"]> (p0 :: p1 :: p2 :: parts))
                    ++ copy (<[1%nat := "2"]> (p0 :: p1 :: p2 :: parts))
                    ++ copy (<[1%nat := "3"]> (p0 :: p1 :: p2 :: parts))
               else copy (p0 :: p1 :: p2 :: parts), Ok ())) as Hres.
  { intros back. rewrite io_bind_ret.
    change (Py.item (p0 :: p1 :: p2 :: parts) 1) with (Ok p1).
    rewrite io_bind_lift.
    change ((p0 :: p1 :: p2 :: parts) !! 1%nat) with (Some p1).
    destruct (decide (p1 = "p")) as [->|Hp].
    - rewrite decide_True by done. reflexivity.
    - rewrite decide_False by (by intros [= ?]). reflexivity. }
  destruct (exists_in d back_name); [apply Hres|].
  change (Py.item (p0 :: p1 :: p2 :: parts) 2) with (Ok p2).
  rewrite io_bind_lift.
  change ((p0 :: p1 :: p2 :: parts) !! 2%nat) with (Some p2).
  destruct (decide (p2 = "p")) as [->|Hp].
  { rewrite (decide_True (P := Some "p" = Some "p")) by done. apply Hres. }
  rewrite (decide_False (P := Some p2 = Some "p")) by (by intros [= ?]).
  destruct (decide (p2 = "e")) as [->|He].
  { rewrite (decide_True (P := Some "e" = Some "e")) by done. apply Hres. }
  rewrite (decide_False (P := Some p2 = Some "e")) by (by intros [= ?]).
  reflexivity.
Qed.

Lemma prepare_printing_loop (l : list string) :
  (∀ f, f ∈ l → printing_front service f →
        (3 ≤ length (Py.split "-" f))%nat) →
  for_each l
    (λ _ : (), prepare_printing_image input_path output_path service d) ()
  = (mjoin (printing_events input_path output_path service d <$> l), Ok ()).
Proof.
  induction l as [|f l IH]; intros Hnamed; [done|].
  rewrite for_each_cons, prepare_printing_image_spec, io_bind_done.
  - rewrite IH; [done|]. intros g Hg. by apply Hnamed, list_elem_of_further.
  - apply Hnamed, list_elem_of_here.
Qed.

End PrintingPool.

(** The copies made for the printing services, file by file. *)
Lemma prepare_printing_images_spec (fs : folder_fs)
    (input_path output_path service : string) (d : folder) :
  fs input_path = Some d → well_named (printing_front service) d →
  _prepare_printing_images fs input_path output_path service
  = (mjoin (printing_events input_path output_path service d <$> files d),
     Ok ()).
Proof.
  intros Hd Hnamed. unfold _prepare_printing_images. rewrite Hd.
  by apply prepare_printing_loop.
Qed.

(** ** Splitting and joining file names *)

Lemma split_nonempty (sep : ascii) (s : string) : Py.split sep s ≠ [].
Proof.
  destruct s as [|c r]; simpl; [done|].
  destruct (decide (c = sep)); [done|]. by destruct (Py.split sep r).
Qed.

Lemma join_cons (sep p : string) (ps : list string) :
  ps ≠ [] → Py.join sep (p :: ps) = p +:+ sep +:+ Py.join sep ps.
Proof. by destruct ps. Qed.










Lemma well_named_Forall (front : string → Prop) `{∀ f, Decision (front f)}
    (d : folder) :
  Forall (λ f, front f → (3 ≤ length (Py.split "-" f))%nat) (files d) →
  well_named front d.
Proof. intros HF f Hf. by apply (proj1 (Forall_forall _ _) HF). Qed.


(** C6.  The code misses a case of the claim.  The file [x-1.png] is a
    front for both loops, it has no sibling back and no role part, so by
    the claim it is logged as an error and left out.  The code instead
    reads [parts[2]] of a list of two parts: [_collect_pdf_images] and
    [_prepare_printing_images] stop with [IndexError], nothing is logged
    and nothing is returned for the pool. *)
Theorem short_front_name_raises :
  pdf_front "x-1.png" ∧
  printing_front "mpc" "x-1.png" ∧
  pdf_back "pool" (Folder ["x-1.png"] []) "x-1.png" = None ∧
  printing_back "pool" "mpc" (Folder ["x-1.png"] []) "x-1.png" = None ∧
  _collect_pdf_images short_name_fs "pool" = ([], Raise IndexError) ∧
  _prepare_printing_images short_name_fs "pool" "out" "mpc"
  = ([], Raise IndexError).
Proof. repeat split; vm_compute; reflexivity. Qed.

(** C7, as stated, fails: a front that carries the player marker but whose
    back cannot be resolved yields no entry in the PDF pool and no copy for
    printing. *)
Lemma unresolved_player_front_not_copied :
  Py.split "-" "c-p-z-1.png" !! 1%nat = Some "p" ∧
  _collect_pdf_images orphan_front_fs "pool"
    = ([missing_back_error "c-p-z-1.png"],
       Ok [("player", []); ("encounter", []); ("custom", [])]) ∧
  _prepare_printing_images orphan_front_fs "pool" "out" "mpc"
    = ([missing_back_error "c-p-z-1.png"], Ok ()).
Proof. repeat split; vm_compute; reflexivity. Qed.

(** ** Numbered copies *)

Lemma split_head_no_sep (sep : ascii) (s p : string) (ps : list string) :
  Py.split sep s = p :: ps → has_char sep p = false.
Proof.
  revert p ps. induction s as [|c r IH]; intros p ps; simpl.
  - by intros [= <- <-].
  - destruct (decide (c = sep)) as [->|Hc]; [by intros [= <- <-]|].
    destruct (Py.split sep r) as [|q qs] eqn:E.
    + by pose proof (split_nonempty sep r).
    + intros [= <- <-]. simpl. rewrite (IH q qs eq_refl).
      by rewrite bool_decide_eq_false_2.
Qed.

Lemma sub_id_slot_prefix (side pre s : string) :
  slot_clear side (String.length pre) (pre +:+ s) = true →
  Re.sub_id_slot_go side 0 (pre +:+ s)
  = pre +:+ Re.sub_id_slot_go side 0 s.
Proof.
  induction pre as [|c pre IH]; [done|].
  rewrite !append_cons. cbn [String.length slot_clear].
  intros [Hhere Hrest]%andb_prop. cbn [Re.sub_id_slot_go].
  apply negb_true_iff in Hhere. rewrite Hhere. by rewrite IH.
Qed.

Lemma sub_dashes_prefix (p0 w : string) :
  has_char "-" p0 = false →
  Re.sub_dashes_go false (p0 +:+ w) = p0 +:+ Re.sub_dashes_go false w.
Proof.
  induction p0 as [|c p0 IH]; [done|]. cbn [has_char].
  intros [Hc Hp0]%orb_false_elim. apply bool_decide_eq_false in Hc.
  rewrite !append_cons. cbn [Re.sub_dashes_go].
  rewrite decide_False by done. by rewrite IH.
Qed.

Lemma sub_role_prefix (p0 w : string) :
  has_char "-" p0 = false →
  Re.sub_role_go 0 (p0 +:+ w) = p0 +:+ Re.sub_role_go 0 w.
Proof.
  induction p0 as [|c p0 IH]; [done|]. cbn [has_char].
  intros [Hc Hp0]%orb_false_elim. apply bool_decide_eq_false in Hc.
  rewrite !append_cons. cbn [Re.sub_role_go Py.startswith].
  rewrite !(bool_decide_eq_false_2 ("-"%char = c)) by done.
  cbn [andb orb]. by rewrite IH.
Qed.

(** The substitutions keep the first part and the copy number of a
    numbered name. *)
Lemma output_name_numbered (side p0 i text : string) :
  i ∈ ["1"; "2"; "3"] →
  has_char "-" p0 = false →
  slot_clear side (String.length p0 + 2) (p0 +:+ "-" +:+ i +:+ "-" +:+ text)
  = true →
  output_name side (p0 +:+ "-" +:+ i +:+ "-" +:+ text)
  = p0 +:+ "-" +:+ i +:+ name_tail side text.
Proof.
  intros Hi Hp0 Hclear. unfold output_name, name_tail.
  assert (String.length (p0 +:+ "-" +:+ i) = (String.length p0 + 2)%nat)
    as Hlen.
  { clear -Hi. induction p0 as [|c p0 IH].
    - by repeat (apply elem_of_cons in Hi as [->|Hi]; [done|]);
        apply not_elem_of_nil in Hi.
    - rewrite append_cons. cbn [String.length]. by rewrite IH. }
  assert (p0 +:+ "-" +:+ i +:+ "-" +:+ text
          = (p0 +:+ "-" +:+ i) +:+ "-" +:+ text) as Hassoc
    by (by rewrite !append_assoc).
  unfold Re.sub_id_slot. rewrite Hassoc, sub_id_slot_prefix
    by (by rewrite Hlen, <- Hassoc).
  rewrite !append_assoc. unfold Re.sub_dashes.
  rewrite sub_dashes_prefix by done.
  set (t := Re.sub_id_slot_go side 0 ("-" +:+ text)).
  assert (Re.sub_dashes_go false ("-" +:+ i +:+ t)
          = "-" +:+ i +:+ Re.sub_dashes_go false t) as ->.
  { by repeat (apply elem_of_cons in Hi as [->|Hi]; [done|]);
      apply not_elem_of_nil in Hi. }
  unfold Re.sub_role. rewrite sub_role_prefix by done.
  set (u := Re.sub_dashes_go false t).
  assert (Re.sub_role_go 0 ("-" +:+ i +:+ u)
          = "-" +:+ i +:+ Re.sub_role_go 0 u) as ->.
  { by repeat (apply elem_of_cons in Hi as [->|Hi]; [done|]);
      apply not_elem_of_nil in Hi. }
  done.
Qed.

Lemma numbered_front_eq (p0 i : string) (rest : list string) :
  rest ≠ [] →
  numbered_front p0 i rest = p0 +:+ "-" +:+ i +:+ "-" +:+ front_text rest.
Proof.
  intros Hrest. unfold numbered_front, front_text.
  rewrite join_cons by done. by rewrite join_cons.
Qed.

Lemma numbered_back_eq (ext p0 i : string) (rest : list string) :
  rest ≠ [] →
  numbered_back ext p0 i rest
  = p0 +:+ "-" +:+ i +:+ "-" +:+ back_text ext rest.
Proof.
  intros Hrest. unfold numbered_back, back_text, Py.but_last.
  destruct rest as [|r0 rest]; [done|].
  change (removelast (p0 :: i :: r0 :: rest))
    with (p0 :: i :: removelast (r0 :: rest)).
  destruct (removelast (r0 :: rest)) as [|q qs].
  - cbn [Py.join]. by rewrite !append_assoc.
  - rewrite join_cons by done. rewrite join_cons by done.
    by rewrite !append_assoc.
Qed.

Lemma join_numbered (output_path p0 t : string) :
  OsPath.join output_path (p0 +:+ "-" +:+ t)
  = joined_prefix output_path p0 +:+ p0 +:+ "-" +:+ t.
Proof.
  unfold OsPath.join, joined_prefix.
  assert (Py.startswith (p0 +:+ "-" +:+ t) "/"
          = Py.startswith (p0 +:+ "-") "/") as ->.
  { assert (∀ x, Py.startswith x "" = true) as Hnil by (by intros []).
    destruct p0 as [|c p0]; [reflexivity|].
    rewrite !append_cons. cbn [Py.startswith]. by rewrite !Hnil. }
  destruct (Py.startswith (p0 +:+ "-") "/"); [done|].
  destruct (bool_decide (output_path = "") || Py.endswith output_path "/");
    [done|]. by rewrite !append_assoc.
Qed.

Lemma copy_events_numbered (input_path output_path service f back p0
    marker i : string) (rest : list string) :
  i ∈ ["1"; "2"; "3"] →
  has_char "-" p0 = false →
  rest ≠ [] →
  slot_clear "1" (String.length p0 + 2) (numbered_front p0 i rest) = true →
  slot_clear "2" (String.length p0 + 2)
    (numbered_back (file_type_of service) p0 i rest) = true →
  copy_events input_path output_path service f back
    (<[1%nat := i]> (p0 :: marker :: rest))
  = numbered_copies input_path output_path service f back p0 rest i.
Proof.
  intros Hi Hp0 Hrest Hfront Hback. unfold copy_events, numbered_copies.
  change (<[1%nat := i]> (p0 :: marker :: rest)) with (p0 :: i :: rest).
  fold (numbered_front p0 i rest).
  fold (numbered_back (file_type_of service) p0 i rest).
  rewrite numbered_front_eq in * by done.
  rewrite numbered_back_eq in * by done.
  rewrite !output_name_numbered by done.
  by rewrite !join_numbered.
Qed.

Lemma numbered_destinations_differ (pre i j t u : string) :
  i ∈ ["1"; "2"; "3"] → j ∈ ["1"; "2"; "3"] → i ≠ j →
  pre +:+ i +:+ t ≠ pre +:+ j +:+ u.
Proof.
  intros Hi Hj Hij. induction pre as [|c pre IH].
  - repeat (apply elem_of_cons in Hi as [->|Hi]);
      try (by apply not_elem_of_nil in Hi);
      repeat (apply elem_of_cons in Hj as [->|Hj]);
      try (by apply not_elem_of_nil in Hj); done.
  - rewrite !append_cons. intros [= H]. by apply IH.
Qed.

(** C7, as stated, also fails on the numbering: when fewer than 36
    characters stand between the first part of the name and its suffix,
    the identifier slot takes the copy number with it, and the three
    copies of a player front are written to one and the same file. *)
Lemma short_slot_copies_collide :
  _prepare_printing_images short_slot_fs "pool" "out" "mpc"
  = ([CopyFile "pool/a-p-p-0123456789012345678901234567890-1.png"
        "out/a-1.png";
      CopyFile "imagesBack/playerBackUnofficialMPC.png" "out/a-2.png";
      CopyFile "pool/a-p-p-0123456789012345678901234567890-1.png"
        "out/a-1.png";
      CopyFile "imagesBack/playerBackUnofficialMPC.png" "out/a-2.png";
      CopyFile "pool/a-p-p-0123456789012345678901234567890-1.png"
        "out/a-1.png";
      CopyFile "imagesBack/playerBackUnofficialMPC.png" "out/a-2.png"],
     Ok ()).
Proof. vm_compute. reflexivity. Qed.

(** C7 (amended).  In a pool whose fronts all have at least three
    dash-separated parts, every front whose back is resolved and which
    carries the player marker adds exactly 3 equal (front, back) entries to
    the PDF pool and gets exactly 3 front copies and 3 back copies for
    printing, made for the names with 1, 2 and 3 in place of the marker; a
    front with a resolved back and any other second part adds one entry and
    gets one front and one back copy.  The pools are these contributions,
    in the order of the files.  When, moreover, the identifier slots of the
    numbered names start after the copy number, copy [i] of the front and of
    the back is written to a name that begins with the first part of the
    front's name, a dash and [i], and no two of the three copies share a
    destination. *)
Theorem player_replication (fs : folder_fs)
    (pdf_path print_path output_path service : string)
    (d_pdf d_print : folder) :
  fs pdf_path = Some d_pdf → files d_pdf ≠ [] →
  well_named pdf_front d_pdf →
  fs print_path = Some d_print →
  well_named (printing_front service) d_print →
  (∃ (log : list event) (images : images_t),
     _collect_pdf_images fs pdf_path = (log, Ok images) ∧
     (∀ key : string,
        images_get images key
        = mjoin (pdf_entries pdf_path d_pdf key <$> files d_pdf)) ∧
     (∀ f key back : string,
        pdf_front f → pdf_back pdf_path d_pdf f = Some (key, back) →
        pdf_entries pdf_path d_pdf key f
        = replicate (if decide (Py.split "-" f !! 1%nat = Some "p")
                     then 3%nat else 1%nat)
            (OsPath.join pdf_path f, back) ∧
        ∀ key' : string,
          key' ≠ key → pdf_entries pdf_path d_pdf key' f = [])) ∧
  _prepare_printing_images fs print_path output_path service
    = (mjoin (printing_events print_path output_path service d_print
              <$> files d_print), Ok ()) ∧
  (∀ f key back : string,
     printing_front service f →
     printing_back print_path service d_print f = Some (key, back) →
     let copy := copy_events print_path output_path service f back in
     printing_events print_path output_path service d_print f
     = if decide (Py.split "-" f !! 1%nat = Some "p")
       then copy (<[1%nat := "1"]> (Py.split "-" f))
            ++ copy (<[1%nat := "2"]> (Py.split "-" f))
            ++ copy (<[1%nat := "3"]> (Py.split "-" f))
       else copy (Py.split "-" f)) ∧
  (∀ (f key back p0 : string) (rest : list string),
     f ∈ files d_print →
     printing_front service f →
     printing_back print_path service d_print f = Some (key, back) →
     Py.split "-" f = p0 :: "p" :: rest →
     copy_number_kept (file_type_of service) p0 rest →
     let copies :=
       numbered_copies print_path output_path service f back p0 rest in
     printing_events print_path output_path service d_print f
     = copies "1" ++ copies "2" ++ copies "3" ∧
     ∀ (i j : string) (e e' : event),
       i ∈ ["1"; "2"; "3"] → j ∈ ["1"; "2"; "3"] → i ≠ j →
       e ∈ copies i → e' ∈ copies j →
       is_Some (copy_destination e) ∧
       copy_destination e ≠ copy_destination e').
Proof.
  intros Hpdf Hne Hnamed Hprint Hnamed'. split; [|split; [|split]].
  - destruct (collect_pdf_images_spec fs pdf_path d_pdf Hpdf Hne Hnamed)
      as (images & Hrun & _ & Hget).
    eexists _, images. split; [exact Hrun|]. split; [exact Hget|].
    intros f key back Hfront Hback. unfold pdf_entries.
    split.
    + rewrite (decide_True (P := pdf_front f)) by exact Hfront.
      rewrite Hback, (decide_True (P := key = key)) by reflexivity.
      reflexivity.
    + intros key' Hne'.
      rewrite (decide_True (P := pdf_front f)) by exact Hfront.
      rewrite Hback. by rewrite (decide_False (P := key = key')).
  - by apply prepare_printing_images_spec.
  - intros f key back Hfront Hback copy. unfold printing_events.
    rewrite (decide_True (P := printing_front service f)) by done.
    by rewrite Hback.
  - intros f key back p0 rest Hf Hfront Hback Hparts Hkept copies.
    assert (rest ≠ []) as Hrest.
    { pose proof (Hnamed' f Hf Hfront) as Hlen. rewrite Hparts in Hlen.
      intros ->. simpl in Hlen. lia. }
    pose proof (split_head_no_sep _ _ _ _ Hparts) as Hp0.
    split.
    + unfold printing_events.
      rewrite (decide_True (P := printing_front service f)) by done.
      rewrite Hback, Hparts.
      rewrite (decide_True (P := (p0 :: "p" :: rest) !! 1%nat = Some "p"))
        by done.
      unfold copy_number_kept in Hkept.
      apply Forall_cons in Hkept as [[H1 H1'] Hkept].
      apply Forall_cons in Hkept as [[H2 H2'] Hkept].
      apply Forall_cons in Hkept as [[H3 H3'] _].
      unfold copies.
      rewrite !copy_events_numbered; try done.
      * do 2 apply list_elem_of_further. apply list_elem_of_here.
      * apply list_elem_of_further, list_elem_of_here.
      * apply list_elem_of_here.
    + intros i j e e' Hi Hj Hij He He'. unfold copies, numbered_copies in *.
      assert (∀ k t : string,
                joined_prefix output_path p0 +:+ p0 +:+ "-" +:+ k +:+ t
                = (joined_prefix output_path p0 +:+ p0 +:+ "-") +:+ k +:+ t)
        as Hshape by (intros; by rewrite !append_assoc).
      apply elem_of_cons in He as [->|He];
        [|apply list_elem_of_singleton in He as ->];
        (split; [by eexists|]);
        (apply elem_of_cons in He' as [->|He'];
         [|apply list_elem_of_singleton in He' as ->]);
        cbn [copy_destination]; intros [= Heq]; revert Heq;
        rewrite !Hshape; by apply numbered_destinations_differ.
Qed.

Lemma player_replication_witness :
  (_prepare_printing_images rendered_pool_fs "pool" "out" "mpc").1
  = [CopyFile
       "pool/001-p-p-Aragorn-51223bd0-ffd1-11df-a976-0801200c9001-1.png"
       "out/001-1-Aragorn-1.png";
     CopyFile "imagesBack/playerBackUnofficialMPC.png"
       "out/001-1-Aragorn-2.png";
     CopyFile
       "pool/001-p-p-Aragorn-51223bd0-ffd1-11df-a976-0801200c9001-1.png"
       "out/001-2-Aragorn-1.png";
     CopyFile "imagesBack/playerBackUnofficialMPC.png"
       "out/001-2-Aragorn-2.png";
     CopyFile
       "pool/001-p-p-Aragorn-51223bd0-ffd1-11df-a976-0801200c9001-1.png"
       "out/001-3-Aragorn-1.png";
     CopyFile "imagesBack/playerBackUnofficialMPC.png"
       "out/001-3-Aragorn-2.png";
     CopyFile "pool/002-1-e-Orc-51223bd0-ffd1-11df-a976-0801200c9002-1.png"
       "out/002-1-Orc-1.png";
     CopyFile "imagesBack/encounterBackUnofficialMPC.png"
       "out/002-1-Orc-2.png"].
Proof.
  destruct (player_replication rendered_pool_fs "pool" "pool" "out" "mpc"
              (Folder
                 ["001-p-p-Aragorn-51223bd0-ffd1-11df-a976-0801200c9001-1.png";
                  "002-1-e-Orc-51223bd0-ffd1-11df-a976-0801200c9002-1.png";
                  "readme.txt"] [])
              (Folder
                 ["001-p-p-Aragorn-51223bd0-ffd1-11df-a976-0801200c9001-1.png";
                  "002-1-e-Orc-51223bd0-ffd1-11df-a976-0801200c9002-1.png";
                  "readme.txt"] []))
    as (_ & Hrun & _ & Hnumbered).
  - reflexivity.
  - discriminate.
  - apply well_named_Forall; [apply _|].
    apply (bool_decide_unpack _). vm_compute. exact I.
  - reflexivity.
  - apply well_named_Forall; [apply _|].
    apply (bool_decide_unpack _). vm_compute. exact I.
  - rewrite Hrun. cbn [fst files fmap list_fmap mjoin list_join].
    destruct (Hnumbered
                "001-p-p-Aragorn-51223bd0-ffd1-11df-a976-0801200c9001-1.png"
                "player" "imagesBack/playerBackUnofficialMPC.png" "001"
                ["p"; "Aragorn"; "51223bd0"; "ffd1"; "11df"; "a976";
                 "0801200c9001"; "1.png"])
      as [-> _].
    + apply list_elem_of_here.
    + reflexivity.
    + reflexivity.
    + reflexivity.
    + repeat constructor; vm_compute; reflexivity.
    + vm_compute. reflexivity.
Defined.

(** ** Canonical serialisation *)

Abbreviation sub_go := Re.sub_newline_space_go.

Lemma sub_go_app (b : bool) (s k : string) :
  sub_go b (s +:+ k) = sub_go b s +:+ sub_go (skipping_after b s) k.
Proof.
  revert b. induction s as [|c s IH]; intros b; [done|].
  rewrite append_cons. simpl.
  destruct (decide (c = "010"%char)); [apply IH|].
  destruct (b && Py.is_space c); [apply IH|].
  by rewrite append_cons, IH.
Qed.

Lemma same_sub_prefix (p k1 k2 : string) :
  same_sub k1 k2 → same_sub (p +:+ k1) (p +:+ k2).
Proof. intros H b. by rewrite !sub_go_app, H. Qed.

Lemma same_sub_char (c : ascii) (k1 k2 : string) :
  Py.is_space c = false → sub_go false k1 = sub_go false k2 →
  same_sub (String c k1) (String c k2).
Proof.
  intros Hc H b. simpl.
  destruct (decide (c = "010"%char)) as [->|_]; [done|].
  rewrite Hc, andb_false_r. by rewrite H.
Qed.

Lemma good_char (c : ascii) (k : string) :
  Py.is_space c = false → good (String c k).
Proof.
  intros Hc b. simpl.
  destruct (decide (c = "010"%char)) as [->|_]; [done|].
  by rewrite Hc, andb_false_r.
Qed.

Lemma good_nil : good "".
Proof. by intros b. Qed.

Lemma all_space_skip (w k : string) :
  Py.all_space w = true → sub_go true (w +:+ k) = sub_go true k.
Proof.
  induction w as [|c w IH]; [done|]. rewrite append_cons. simpl.
  intros [Hc Hw]%andb_true_iff.
  destruct (decide (c = "010"%char)); [by apply IH|].
  rewrite Hc. by apply IH.
Qed.

Lemma indentation_skip (y k : string) (b : bool) :
  indentation y = true → good k → sub_go b (y +:+ k) = sub_go false k.
Proof.
  unfold indentation. intros [Hs Hy]%andb_true_iff Hk.
  destruct y as [|c w]; [apply Hk|].
  rewrite bool_decide_eq_false_2 in Hy by done. simpl in Hy.
  apply andb_true_iff in Hy as [Hc%bool_decide_eq_true _]. subst c.
  simpl in Hs. rewrite append_cons. simpl.
  rewrite all_space_skip by done. apply Hk.
Qed.

Lemma escape_cdata_space (s : string) :
  Py.all_space s = true → ET.escape_cdata s = s.
Proof.
  induction s as [|c s IH]; [done|]. simpl.
  intros [Hc Hs]%andb_true_iff. rewrite IH by done.
  repeat (case_decide; [subst c; done|]). done.
Qed.

Lemma indentation_space (s : string) :
  indentation s = true → Py.all_space s = true.
Proof. unfold indentation. by intros [? _]%andb_true_iff. Qed.

(** Related tails, or texts, in front of related continuations. *)
Lemma same_sub_tail (y1 y2 k1 k2 : string) :
  indent_tail y1 y2 → good k1 → good k2 → same_sub k1 k2 →
  same_sub (ET.escape_cdata y1 +:+ k1) (ET.escape_cdata y2 +:+ k2).
Proof.
  intros [->|[H1 H2]] Hk1 Hk2 Hk.
  - by apply same_sub_prefix.
  - intros b.
    rewrite !escape_cdata_space by (by apply indentation_space).
    rewrite !indentation_skip by done. apply Hk.
Qed.

Lemma Element_ind' (P : ET.Element → Prop) :
  (∀ t a x c y, Forall P c → P (ET.Elem t a x c y)) → ∀ e, P e.
Proof.
  intros H. fix IH 1. intros [t a x c y]. apply H.
  induction c as [|e c IHc]; constructor; [apply IH|apply IHc].
Qed.

Lemma serialized_children_app (c : list ET.Element) (z : string) :
  serialized_children c "" +:+ z = serialized_children c z.
Proof.
  induction c as [|e c IH]; [done|]. simpl.
  by rewrite append_assoc, IH.
Qed.

Lemma tostring_app (t : string) (a : list (string * string)) (x : string)
    (c : list ET.Element) (y k : string) :
  ET.tostring (ET.Elem t a x c y) +:+ k =
  "<" +:+ t +:+ ET.serialize_attrib a +:+
  (if bool_decide (x = "") && bool_decide (c = [])
   then String " " (String "/" (String ">" (ET.escape_cdata y +:+ k)))
   else String ">"
          (ET.escape_cdata x +:+
           serialized_children c
             (String "<" (String "/"
                (t +:+ String ">" (ET.escape_cdata y +:+ k)))))).
Proof.
  cbn [ET.tostring]. fold (serialized_children c "").
  rewrite !append_assoc. do 3 f_equal.
  destruct (bool_decide (x = "") && bool_decide (c = [])).
  - reflexivity.
  - rewrite !append_assoc, serialized_children_app. reflexivity.
Qed.

Lemma good_tostring (e : ET.Element) (k : string) :
  good (ET.tostring e +:+ k).
Proof.
  destruct e as [t a x c y]. rewrite tostring_app.
  change ("<" +:+ ?s) with (String "<" s). by apply good_char.
Qed.

Lemma children_same_sub (c1 c2 : list ET.Element) (z1 z2 : string) :
  Forall2 passes c1 c2 → good z1 → good z2 → same_sub z1 z2 →
  same_sub (serialized_children c1 z1) (serialized_children c2 z2)
  ∧ good (serialized_children c1 z1) ∧ good (serialized_children c2 z2).
Proof.
  intros Hc Hz1 Hz2 Hz. induction Hc as [|e1 e2 c1 c2 He _ IH]; [done|].
  destruct IH as (IH & Hg1 & Hg2). simpl. split; [|split].
  - by apply He.
  - apply good_tostring.
  - apply good_tostring.
Qed.

Lemma body_same_sub (t : string) (a : list (string * string))
    (x1 x2 : string) (c1 c2 : list ET.Element) (y1 y2 k1 k2 : string) :
  indent_text (bool_decide (c1 = [])) x1 x2 →
  Forall2 passes c1 c2 →
  sub_go false (ET.escape_cdata y1 +:+ k1)
    = sub_go false (ET.escape_cdata y2 +:+ k2) →
  same_sub (ET.tostring (ET.Elem t a x1 c1 y1) +:+ k1)
           (ET.tostring (ET.Elem t a x2 c2 y2) +:+ k2).
Proof.
  intros Hx Hc Hk. rewrite !tostring_app.
  do 3 apply same_sub_prefix.
  assert (bool_decide (c2 = []) = bool_decide (c1 = [])) as Hnil.
  { destruct Hc; [done|]. by rewrite !bool_decide_eq_false_2. }
  assert (bool_decide (x2 = "") && bool_decide (c1 = [])
          = bool_decide (x1 = "") && bool_decide (c1 = [])) as Hempty.
  { destruct (bool_decide (c1 = [])) eqn:E; [|by rewrite !andb_false_r].
    rewrite !andb_true_r. destruct Hx as [->|(_ & _ & Hiff)]; [done|].
    apply bool_decide_ext. symmetry. by apply Hiff. }
  rewrite Hnil, Hempty.
  destruct (bool_decide (x1 = "") && bool_decide (c1 = [])).
  - change (String " " (String "/" ?s)) with (" /" +:+ s).
    apply same_sub_prefix. by apply same_sub_char.
  - apply same_sub_char; [done|].
    set (z1 := String "<" (String "/"
                 (t +:+ String ">" (ET.escape_cdata y1 +:+ k1)))).
    set (z2 := String "<" (String "/"
                 (t +:+ String ">" (ET.escape_cdata y2 +:+ k2)))).
    destruct (children_same_sub c1 c2 z1 z2 Hc) as (Hkids & Hg1 & Hg2).
    + by apply good_char.
    + by apply good_char.
    + unfold z1, z2. change (String "<" (String "/" ?s)) with ("</" +:+ s).
      apply same_sub_prefix, same_sub_prefix. by apply same_sub_char.
    + destruct Hx as [->|(Hx1 & Hx2 & _)].
      * by apply same_sub_prefix.
      * rewrite !escape_cdata_space by (by apply indentation_space).
        rewrite !indentation_skip by done. apply Hkids.
Qed.

Lemma tree_rel_passes (e1 e2 : ET.Element) :
  tree_rel indent_text indent_tail e1 e2 → passes e1 e2.
Proof.
  revert e2. induction e1 as [t a x1 c1 y1 IH] using Element_ind'.
  intros e2 Hrel. inversion Hrel as [? ? ? x2 ? c2 ? y2 Hx Hc Hy]; subst.
  intros k1 k2 Hk1 Hk2 Hk. apply body_same_sub; [done| |].
  - clear Hx Hrel. induction Hc as [|d1 d2 c1 c2 Hd _ IHc]; [constructor|].
    apply Forall_cons in IH as [IHd IH]. constructor; [by apply IHd|].
    by apply IHc.
  - by apply same_sub_tail.
Qed.

(** ** [str.strip] on a serialised element *)

Lemma all_space_app (s t : string) :
  Py.all_space (s +:+ t) = Py.all_space s && Py.all_space t.
Proof.
  induction s as [|c s IH]; [done|]. rewrite append_cons. simpl.
  by rewrite IH, andb_assoc.
Qed.

Lemma rstrip_app (s t : string) :
  Py.rstrip (s +:+ t)
  = if Py.all_space t then Py.rstrip s else s +:+ Py.rstrip t.
Proof.
  induction s as [|c s IH].
  - rewrite append_nil_l. destruct t as [|d t]; [done|].
    simpl. by destruct (Py.is_space d && Py.all_space t).
  - rewrite append_cons.
    change (Py.rstrip (String c (s +:+ t)))
      with (if Py.all_space (String c (s +:+ t)) then ""
            else String c (Py.rstrip (s +:+ t))).
    change (Py.rstrip (String c s))
      with (if Py.all_space (String c s) then ""
            else String c (Py.rstrip s)).
    change (Py.all_space (String c ?r))
      with (Py.is_space c && Py.all_space r).
    rewrite all_space_app, IH.
    destruct (Py.all_space t); [by rewrite andb_true_r|].
    by rewrite !andb_false_r, append_cons.
Qed.

Lemma ends_app (p q : string) :
  (∃ s, q = s +:+ ">") → ∃ s, p +:+ q = s +:+ ">".
Proof. intros [s ->]. exists (p +:+ s). by rewrite append_assoc. Qed.

Lemma tostring_tail (t : string) (a : list (string * string)) (x : string)
    (c : list ET.Element) (y : string) :
  ET.tostring (ET.Elem t a x c y)
  = ET.tostring (ET.Elem t a x c "") +:+ ET.escape_cdata y.
Proof.
  cbn [ET.tostring ET.escape_cdata]. by rewrite append_nil_r, !append_assoc.
Qed.

Lemma tostring_body_ends (t : string) (a : list (string * string))
    (x : string) (c : list ET.Element) :
  ∃ s, ET.tostring (ET.Elem t a x c "") = s +:+ ">".
Proof.
  cbn [ET.tostring ET.escape_cdata]. rewrite append_nil_r.
  do 3 apply ends_app.
  destruct (bool_decide (x = "") && bool_decide (c = [])).
  - by exists " /".
  - do 5 apply ends_app. by exists "".
Qed.

Lemma strip_tostring (t : string) (a : list (string * string)) (x : string)
    (c : list ET.Element) (y : string) :
  Py.strip (ET.tostring (ET.Elem t a x c y))
  = ET.tostring (ET.Elem t a x c "")
    +:+ (if Py.all_space (ET.escape_cdata y) then ""
         else Py.rstrip (ET.escape_cdata y)).
Proof.
  unfold Py.strip.
  assert (Py.lstrip (ET.tostring (ET.Elem t a x c y))
          = ET.tostring (ET.Elem t a x c y)) as -> by reflexivity.
  rewrite tostring_tail, rstrip_app.
  destruct (Py.all_space (ET.escape_cdata y)); [|done].
  rewrite append_nil_r.
  destruct (tostring_body_ends t a x c) as [s ->].
  by rewrite rstrip_app.
Qed.

(** ** Attribute dictionaries *)

Lemma dict_get_set (d : list (string * string)) (key value key' : string) :
  ET.dict_get (ET.dict_set d key value) key'
  = if decide (key = key') then Some value else ET.dict_get d key'.
Proof.
  induction d as [|[k v] d IH]; simpl.
  - by destruct (decide (key = key')).
  - destruct (decide (k = key)) as [->|Hk]; simpl.
    + by destruct (decide (key = key')).
    + destruct (decide (k = key')) as [->|Hk'].
      * by rewrite decide_False.
      * apply IH.
Qed.

Lemma get_set (e : ET.Element) (key value key' : string) :
  ET.get (ET.set e key value) key'
  = if decide (key = key') then Some value else ET.get e key'.
Proof. destruct e. apply dict_get_set. Qed.

Lemma children_set (e : ET.Element) (key value : string) :
  ET.children (ET.set e key value) = ET.children e.
Proof. by destruct e. Qed.

(** ** Fingerprints *)

(** C1, as stated, fails: a whitespace-only text without newline is kept by
    the canonical serialisation. *)
Lemma canonical_keeps_spaces :
  ws_equiv spaced_card packed_card ∧
  canonical spaced_card ≠ canonical packed_card.
Proof.
  split.
  - constructor.
    + right. by split.
    + constructor; [|constructor].
      constructor; [by left|constructor|by left].
    + by left.
  - vm_compute. discriminate.
Qed.

Section Fingerprint.
Variable md5_hexdigest : string → string.

(** C1 (amended).  Two card trees with the same tags, attributes and
    attribute values, whose texts inside the card are equal or both
    line-break indentation (nothing, or a newline followed by white space
    only; the text of an element without child being empty in both or in
    neither), and whose text after the card's end tag is equal or
    whitespace-only in both, have the same canonical serialisation, hence
    the same fingerprint and the same [hash] attribute. *)
Theorem fingerprint_indentation (e1 e2 : ET.Element) :
  indent_equiv e1 e2 →
  canonical e1 = canonical e2 ∧
  fingerprint md5_hexdigest e1 = fingerprint md5_hexdigest e2 ∧
  ET.get (hash_card md5_hexdigest e1) "hash"
    = ET.get (hash_card md5_hexdigest e2) "hash".
Proof.
  intros Hrel.
  assert (canonical e1 = canonical e2) as Hcanon.
  { destruct Hrel as [t a x1 x2 c1 c2 y1 y2 Hx Hc Hy].
    unfold canonical, Re.sub_newline_space. rewrite !strip_tostring.
    assert (Forall2 passes c1 c2) as Hpass
      by (eapply Forall2_impl; [exact Hc|apply tree_rel_passes]).
    apply (body_same_sub t a x1 x2 c1 c2 "" ""); [done|done|].
    destruct Hy as [->|[Hy1 Hy2]]; [done|].
    rewrite !escape_cdata_space by done. by rewrite Hy1, Hy2. }
  split; [done|]. unfold hash_card, fingerprint.
  rewrite !get_set, Hcanon. done.
Qed.

End Fingerprint.

Lemma fingerprint_indentation_witness :
  canonical
    (ET.Elem "card" [("id", "1")] (String "010" "  ")
       [ET.Elem "property" [("name", "Type")] "" [] (String "010" "")]
       (String "010" ""))
  = canonical
      (ET.Elem "card" [("id", "1")] ""
         [ET.Elem "property" [("name", "Type")] "" [] ""] "  ").
Proof.
  apply (fingerprint_indentation (λ s, s)).
  constructor.
  - right. by split.
  - constructor; [|constructor].
    constructor; [by left|constructor|right; by split].
  - right. by split.
Defined.

(** ** Skip marks *)

Lemma getitem_Some (e : ET.Element) (key v : string) :
  ET.get e key = Some v → ET.getitem e key = Ok v.
Proof. unfold ET.getitem. by intros ->. Qed.

Lemma first_child_cons (e c : ET.Element) (rest : list ET.Element) :
  ET.children e = c :: rest → ET.first_child e = Ok c.
Proof. unfold ET.first_child, Py.item. by intros ->. Qed.

Lemma children_set_first_child (e c c' : ET.Element)
    (rest : list ET.Element) :
  ET.children e = c :: rest →
  ET.children (ET.set_first_child e c') = c' :: rest.
Proof. destruct e. simpl. by intros ->. Qed.

Lemma get_set_first_child (e c : ET.Element) (key : string) :
  ET.get (ET.set_first_child e c) key = ET.get e key.
Proof. by destruct e. Qed.

Lemma children_with_children (e : ET.Element) (c : list ET.Element) :
  ET.children (ET.with_children e c) = c.
Proof. by destruct e. Qed.

Lemma collect_old_hashes_spec (cards : list ET.Element)
    (m0 : gmap string string) :
  Forall (λ card, is_Some (ET.get card "id")
                  ∧ is_Some (ET.get card "hash")) cards →
  NoDup (card_ids cards) →
  ∃ m : gmap string string,
    collect_old_hashes m0 cards = Ok m ∧
    ∀ id h : string,
      m !! id = Some h ↔
      (∃ card, card ∈ cards ∧ ET.get card "id" = Some id
               ∧ ET.get card "hash" = Some h)
      ∨ (m0 !! id = Some h ∧ Some id ∉ card_ids cards).
Proof.
  revert m0. induction cards as [|card cards IH]; intros m0 Hwf Hnd.
  - exists m0. split; [done|]. intros id h. split.
    + intros H. right. split; [done|]. apply not_elem_of_nil.
    + intros [(c & Hc & _)|[H _]]; [by apply not_elem_of_nil in Hc|done].
  - apply Forall_cons in Hwf as [[[id0 Hid] [h0 Hh]] Hwf].
    unfold card_ids in Hnd. rewrite fmap_cons in Hnd.
    apply NoDup_cons in Hnd as [Hfresh Hnd]. rewrite Hid in Hfresh.
    destruct (IH (<[id0 := h0]> m0) Hwf Hnd) as (m & Hm & Hlook).
    exists m. split.
    { cbn [collect_old_hashes].
      rewrite (getitem_Some _ _ _ Hh), (getitem_Some _ _ _ Hid). exact Hm. }
    intros id h. rewrite Hlook. unfold card_ids. rewrite fmap_cons.
    rewrite not_elem_of_cons. cbn beta. rewrite Hid.
    setoid_rewrite elem_of_cons. split.
    + intros [(c & Hc & Hcid & Hch)|[Hins Hnot]].
      * left. exists c. eauto.
      * destruct (decide (id0 = id)) as [->|Hne].
        -- rewrite lookup_insert_eq in Hins. injection Hins as ->.
           left. exists card. eauto.
        -- rewrite lookup_insert_ne in Hins by done.
           right. split; [done|]. split; [congruence|done].
    + intros [(c & [->|Hc] & Hcid & Hch)|(Hm0 & Hne & Hnot)].
      * right. assert (id = id0) as -> by congruence.
        assert (h = h0) as -> by congruence.
        rewrite lookup_insert_eq. done.
      * left. exists c. eauto.
      * right. rewrite lookup_insert_ne by congruence. done.
Qed.

Lemma mark_skipped_spec (m : gmap string string) (cards : list ET.Element) :
  Forall (λ card, is_Some (ET.get card "id")
                  ∧ is_Some (ET.get card "hash")) cards →
  mark_skipped m cards = Ok (marked_card m <$> cards).
Proof.
  induction 1 as [|card cards [[id Hid] [h Hh]] _ IH]; [done|].
  cbn [mark_skipped].
  rewrite (getitem_Some _ _ _ Hid), (getitem_Some _ _ _ Hh).
  cbn [mbind result_bind]. rewrite IH. cbn [mbind result_bind].
  rewrite fmap_cons. f_equal. f_equal. unfold marked_card.
  by rewrite Hid, Hh.
Qed.

Section CalculateHashes.
Variable md5_hexdigest : string → string.
Variables (set_id set_name lang : string) (fs : xml_fs).
Variable root : ET.Element.
Hypothesis Hnew : fs (new_xml_path set_id lang) = ET.Parsed root.
Hypothesis Hcards : ET.children root ≠ [].

Lemma write_xml_same (path : string) (r : ET.Element) :
  write_xml fs path r path = ET.Parsed r.
Proof. unfold write_xml. by rewrite decide_True. Qed.

Lemma cards_of_hashed_root :
  cards_of (hashed_root md5_hexdigest root)
  = hash_card md5_hexdigest <$> cards_of root.
Proof.
  unfold cards_of, hashed_root.
  destruct (ET.children root) as [|c0 rest] eqn:Hc; [done|].
  rewrite (children_set_first_child _ c0 _ rest) by done.
  by rewrite children_with_children.
Qed.

Lemma calculate_hashes_missing :
  fs (old_xml_path set_id lang) = ET.Missing →
  calculate_hashes md5_hexdigest set_id set_name lang fs
  = Ok (write_xml fs (new_xml_path set_id lang)
          (ET.set (hashed_root md5_hexdigest root) "hash"
             (set_fingerprint md5_hexdigest root)),
        (set_fingerprint md5_hexdigest root, "")).
Proof.
  intros Hold. unfold calculate_hashes.
  fold (new_xml_path set_id lang). fold (old_xml_path set_id lang).
  rewrite Hnew, Hold. cbn [ET.parse mbind result_bind ET.file_exists].
  unfold set_fingerprint, hashed_root.
  destruct (ET.children root) as [|c0 rest] eqn:Hc; [done|].
  rewrite (first_child_cons root c0 rest Hc). reflexivity.
Qed.

Lemma calculate_hashes_parsed (root_old : ET.Element) :
  fs (old_xml_path set_id lang) = ET.Parsed root_old →
  snapshot_document root_old →
  Forall (λ card, is_Some (ET.get card "id")) (cards_of root) →
  ∃ (old_hashes : gmap string string) (old_file_hash : string)
    (root' : ET.Element),
    calculate_hashes md5_hexdigest set_id set_name lang fs
    = Ok (write_xml fs (new_xml_path set_id lang) root',
          (set_fingerprint md5_hexdigest root, old_file_hash)) ∧
    ET.get root_old "hash" = Some old_file_hash ∧
    (∀ id h : string,
       old_hashes !! id = Some h ↔
       ∃ card, card ∈ cards_of root_old ∧ ET.get card "id" = Some id
               ∧ ET.get card "hash" = Some h) ∧
    cards_of root'
    = marked_card old_hashes
      <$> (hash_card md5_hexdigest <$> cards_of root) ∧
    ET.get root' "hash" = Some (set_fingerprint md5_hexdigest root) ∧
    ET.get root' "skip"
    = if decide (old_file_hash = set_fingerprint md5_hexdigest root)
      then Some "1" else ET.get root "skip".
Proof.
  intros Hold (Holdc & [oh Hoh] & Hwf & Hnd) Hids.
  destruct (collect_old_hashes_spec (cards_of root_old) ∅ Hwf Hnd)
    as (m & Hm & Hlook).
  pose proof cards_of_hashed_root as Hhashed.
  unfold calculate_hashes.
  fold (new_xml_path set_id lang). fold (old_xml_path set_id lang).
  rewrite Hnew, Hold. cbn [ET.parse mbind result_bind ET.file_exists].
  unfold set_fingerprint, hashed_root, cards_of in *.
  destruct (ET.children root) as [|c0 rest] eqn:Hc; [done|].
  destruct (ET.children root_old) as [|o0 orest] eqn:Hoc; [done|].
  rewrite (first_child_cons root c0 rest Hc).
  cbn [mbind result_bind].
  set (root1 := ET.set_first_child root
                  (ET.with_children c0
                     (hash_card md5_hexdigest <$> ET.children c0))) in *.
  set (H := fingerprint md5_hexdigest root1).
  rewrite (getitem_Some _ _ _ Hoh). cbn [mbind result_bind].
  rewrite (first_child_cons root_old o0 orest Hoc).
  cbn [mbind result_bind]. rewrite Hm. cbn [mbind result_bind].
  set (root3 := if decide (oh = H) then ET.set (ET.set root1 "hash" H)
                                          "skip" "1"
                else ET.set root1 "hash" H).
  assert (ET.children root3
          = ET.with_children c0
              (hash_card md5_hexdigest <$> ET.children c0) :: rest) as Hc3.
  { unfold root3. destruct (decide (oh = H)); rewrite ?children_set;
      by apply (children_set_first_child root c0). }
  rewrite (first_child_cons root3 _ rest Hc3). cbn [mbind result_bind].
  rewrite children_with_children, mark_skipped_spec.
  2:{ apply Forall_fmap. eapply Forall_impl; [exact Hids|].
      intros card [id Hid]. unfold compose, hash_card.
      rewrite !get_set. rewrite decide_False by done.
      rewrite decide_True by done. rewrite Hid. split; by eexists. }
  cbn [mbind result_bind].
  exists m, oh. eexists. split; [reflexivity|]. split; [done|]. split.
  { intros id h. rewrite Hlook. split.
    - intros [?|[? _]]; [done|]. by rewrite lookup_empty in *.
    - by left. }
  split; [|split].
  - rewrite (children_set_first_child root3 _ _ rest Hc3).
    by rewrite children_with_children.
  - rewrite get_set_first_child. unfold root3.
    destruct (decide (oh = H)); rewrite !get_set;
      rewrite ?decide_False by done; by rewrite decide_True.
  - rewrite get_set_first_child. unfold root3.
    destruct (decide (oh = H)); rewrite !get_set.
    + by rewrite decide_True.
    + rewrite decide_False by done. unfold root1.
      by rewrite get_set_first_child.
Qed.

End CalculateHashes.

Section SkipClaims.
Variable md5_hexdigest : string → string.

(** C3.  When the new document is freshly generated (no [skip] attribute
    yet, every card with an [id]) and the prior snapshot exists, parses and
    is a snapshot (every card with [id] and [hash], no [id] twice),
    [calculate_hashes] returns and writes the new document, in which the
    card at each position keeps its [id], carries its fingerprint as [hash],
    and carries [skip = 1] if and only if the prior snapshot holds a card
    with the same [id] whose stored [hash] is that fingerprint. *)
Theorem skip_per_card (set_id set_name lang : string) (fs : xml_fs)
    (root root_old : ET.Element) :
  fs (new_xml_path set_id lang) = ET.Parsed root →
  fs (old_xml_path set_id lang) = ET.Parsed root_old →
  fresh_document root →
  Forall (λ card, is_Some (ET.get card "id")) (cards_of root) →
  snapshot_document root_old →
  ∃ (fs' : xml_fs) (root' : ET.Element) (hashes : string * string),
    calculate_hashes md5_hexdigest set_id set_name lang fs
      = Ok (fs', hashes) ∧
    fs' (new_xml_path set_id lang) = ET.Parsed root' ∧
    length (cards_of root') = length (cards_of root) ∧
    ∀ (j : nat) (card : ET.Element),
      cards_of root !! j = Some card →
      ∃ card' : ET.Element,
        cards_of root' !! j = Some card' ∧
        ET.get card' "id" = ET.get card "id" ∧
        ET.get card' "hash" = Some (fingerprint md5_hexdigest card) ∧
        (ET.get card' "skip" = Some "1" ↔
         ∃ old_card : ET.Element,
           old_card ∈ cards_of root_old ∧
           ET.get old_card "id" = ET.get card "id" ∧
           ET.get old_card "hash"
             = Some (fingerprint md5_hexdigest card)).
Proof.
  intros Hnew Hold (Hc & Hskip & Hcskip) Hids Hsnap.
  destruct (calculate_hashes_parsed md5_hexdigest set_id set_name lang fs
              root Hnew Hc root_old Hold Hsnap Hids)
    as (m & oh & root' & Hrun & _ & Hlook & Hcards & _ & _).
  eexists _, root', _. split; [exact Hrun|]. split.
  { apply write_xml_same. }
  split. { by rewrite Hcards, !length_fmap. }
  intros j card Hj. rewrite Hcards, !list_lookup_fmap, Hj. simpl.
  eexists. split; [reflexivity|].
  assert (ET.get card "skip" = None) as Hns
    by (eapply (proj1 (Forall_forall _ _) Hcskip),
          list_elem_of_lookup_2, Hj).
  destruct (proj1 (Forall_forall _ _) Hids card) as [id Hid].
  { eapply list_elem_of_lookup_2, Hj. }
  assert (ET.get (hash_card md5_hexdigest card) "id" = Some id) as Hid'.
  { unfold hash_card. rewrite get_set. by rewrite decide_False. }
  assert (ET.get (hash_card md5_hexdigest card) "hash"
          = Some (fingerprint md5_hexdigest card)) as Hh'.
  { unfold hash_card. rewrite get_set. by rewrite decide_True. }
  assert (ET.get (hash_card md5_hexdigest card) "skip" = None) as Hs'.
  { unfold hash_card. rewrite get_set. by rewrite decide_False. }
  unfold marked_card. rewrite Hid', Hh', Hid.
  destruct (decide (m !! id = Some (fingerprint md5_hexdigest card)))
    as [Hm|Hm].
  - rewrite !get_set. rewrite !decide_False by done.
    rewrite decide_True by done.
    split; [done|]. split; [done|].
    split; [intros _; apply Hlook; exact Hm | done].
  - split; [done|]. split; [done|]. rewrite Hs'. split; [done|].
    intros Hex. destruct Hm. apply Hlook. exact Hex.
Qed.

(** C4.  For a freshly generated new document: without prior snapshot
    file, [calculate_hashes] returns the new fingerprint and the empty
    string as old file hash, and neither the root nor any card of the
    written document carries [skip]; with a prior snapshot that parses,
    the root of the written document carries [skip = 1] if and only if the
    set-level [hash] stored in the snapshot is the newly computed one. *)
Theorem skip_set_level (set_id set_name lang : string) (fs : xml_fs)
    (root : ET.Element) :
  fs (new_xml_path set_id lang) = ET.Parsed root →
  fresh_document root →
  (fs (old_xml_path set_id lang) = ET.Missing →
   ∃ (fs' : xml_fs) (root' : ET.Element),
     calculate_hashes md5_hexdigest set_id set_name lang fs
       = Ok (fs', (set_fingerprint md5_hexdigest root, "")) ∧
     fs' (new_xml_path set_id lang) = ET.Parsed root' ∧
     ET.get root' "skip" = None ∧
     Forall (λ card, ET.get card "skip" = None) (cards_of root')) ∧
  (∀ root_old : ET.Element,
     fs (old_xml_path set_id lang) = ET.Parsed root_old →
     snapshot_document root_old →
     Forall (λ card, is_Some (ET.get card "id")) (cards_of root) →
     ∃ (fs' : xml_fs) (root' : ET.Element) (old_file_hash : string),
       calculate_hashes md5_hexdigest set_id set_name lang fs
         = Ok (fs', (set_fingerprint md5_hexdigest root, old_file_hash)) ∧
       fs' (new_xml_path set_id lang) = ET.Parsed root' ∧
       ET.get root_old "hash" = Some old_file_hash ∧
       ET.get root' "hash" = Some (set_fingerprint md5_hexdigest root) ∧
       (ET.get root' "skip" = Some "1" ↔
        old_file_hash = set_fingerprint md5_hexdigest root)).
Proof.
  intros Hnew (Hc & Hskip & Hcskip). split.
  - intros Hold. eexists _, _. split.
    { by apply calculate_hashes_missing. }
    split; [apply write_xml_same|]. split.
    + rewrite get_set, decide_False by done.
      unfold hashed_root. destruct (ET.children root); [done|].
      by rewrite get_set_first_child.
    + assert (cards_of (ET.set (hashed_root md5_hexdigest root) "hash"
                          (set_fingerprint md5_hexdigest root))
              = cards_of (hashed_root md5_hexdigest root)) as ->
        by (unfold cards_of; by rewrite children_set).
      rewrite (cards_of_hashed_root md5_hexdigest root) by done.
      apply Forall_fmap. eapply Forall_impl; [exact Hcskip|].
      intros card Hs. unfold compose, hash_card.
      rewrite get_set. rewrite decide_False by done. exact Hs.
  - intros root_old Hold Hsnap Hids.
    destruct (calculate_hashes_parsed md5_hexdigest set_id set_name lang fs
                root Hnew Hc root_old Hold Hsnap Hids)
      as (m & oh & root' & Hrun & Hoh & _ & _ & Hh & Hs).
    eexists _, root', oh. split; [exact Hrun|].
    split; [apply write_xml_same|]. split; [done|]. split; [done|].
    rewrite Hs, Hskip. by case_decide.
Qed.

End SkipClaims.

Lemma skip_per_card_witness :
  ∃ (fs' : xml_fs) (root' : ET.Element) (card' : ET.Element),
    fs' (new_xml_path "S" "en") = ET.Parsed root' ∧
    cards_of root' !! 0%nat = Some card' ∧
    ET.get card' "skip" = Some "1".
Proof.
  destruct (skip_per_card (λ _, "h") "S" "Set" "en" (sample_xml_fs true)
              sample_new_root sample_old_root)
    as (fs' & root' & hashes & _ & Hfs & _ & Hcards).
  - reflexivity.
  - reflexivity.
  - split; [done|]. split; [done|]. by repeat constructor.
  - repeat constructor; by eexists.
  - split; [done|]. split; [by eexists|]. split.
    + repeat constructor; by eexists.
    + apply (bool_decide_unpack _). vm_compute. exact I.
  - destruct (Hcards 0%nat _ eq_refl) as (card' & Hc' & _ & _ & Hskip).
    exists fs', root', card'. split; [done|]. split; [done|].
    apply Hskip. eexists. split; [apply list_elem_of_here|].
    split; reflexivity.
Defined.

Lemma skip_set_level_witness :
  ∃ (fs' : xml_fs) (root' : ET.Element),
    calculate_hashes (λ _, "h") "S" "Set" "en" (sample_xml_fs false)
      = Ok (fs', ("h", "")) ∧
    fs' (new_xml_path "S" "en") = ET.Parsed root' ∧
    ET.get root' "skip" = None.
Proof.
  destruct (skip_set_level (λ _, "h") "S" "Set" "en" (sample_xml_fs false)
              sample_new_root) as [Hmissing _].
  - reflexivity.
  - split; [done|]. split; [done|]. by repeat constructor.
  - destruct (Hmissing eq_refl) as (fs' & root' & Hrun & Hfs & Hs & _).
    exists fs', root'. split; [exact Hrun|]. split; done.
Defined.

(** * Further properties *)

(** ** Change detection across runs *)







Section AcrossRuns.
Variable md5_hexdigest : string → string.
Variables (set_id set_name lang : string).




End AcrossRuns.




(** ** Frame and failures of [calculate_hashes] *)


Section HashesOutcome.
Variable md5_hexdigest : string → string.
Variables (set_id set_name lang : string).





End HashesOutcome.




(** ** Clearing folders *)




(** ** MakePlayingCards archive *)





(** ** DriveThruCards archive without decks *)









(** ** Deck numbers along the sorted list *)



(** ** PDF proof sheets: further properties *)




(** ** Filling the sheets *)


Section Sheets.
Variable l : list (string * string).




End Sheets.

(** ** Output names *)





